(** * corvil_extract: the extraction pipeline controller

    A shallow embedding of [src/corvil_extract.py] and the properties of
    its catalog, schema verifier, extraction runner and manifest writer.

    Python values are modelled as follows.
    - [str] is [string]; [list] is [list]; [dict] is an association list
      in insertion order ([dict V]), since [list_extracts] prints in that
      order.
    - The filesystem is a finite map from path to file ([gmap string file]).
    - Code with effects lives in the monad [M]: it threads a [World] and
      either returns or aborts, by an exception or by [sys.exit].  The
      world reached when the abort happens is kept, as in Python.
    - Project helpers and library calls whose code is not in the script
      ([run_command], [Market], [cpm_connect], [event_log], [datetime],
      [re] with a pattern built at run time, [os.listdir], [smtplib]) are
      the fields of a [Platform]. *)

From Stdlib Require Import String Ascii List ZArith Lia Bool.
From stdpp Require Import base gmap strings list pretty.
Import ListNotations.

Open Scope string_scope.
Open Scope list_scope.
Set Warnings "-abstract-large-number".

(** ** Python strings *)

Module Py.

(** The double quote character, and the newline. *)
Definition dquote : ascii := "034"%char.
Definition newline : ascii := "010"%char.
Definition dq : string := String dquote EmptyString.
Definition nl : string := String newline EmptyString.

(** [sep.join(l)] *)
Fixpoint join (sep : string) (l : list string) : string :=
  match l with
  | [] => ""
  | [x] => x
  | x :: rest => x +:+ sep +:+ join sep rest
  end.

(** [s.split(c)] for a one-character separator [c]: the result is never
    empty, and [""] splits to [[""]]. *)
Fixpoint split (c : ascii) (s : string) : list string :=
  match s with
  | EmptyString => [""]
  | String a s' =>
      if Ascii.eqb a c then "" :: split c s'
      else match split c s' with
           | [] => [String a ""]
           | h :: t => String a h :: t
           end
  end.

(** [s.replace(c, "")] for a one-character [c]. *)
Fixpoint remove_char (c : ascii) (s : string) : string :=
  match s with
  | EmptyString => ""
  | String a s' =>
      if Ascii.eqb a c then remove_char c s' else String a (remove_char c s')
  end.

(** [s.lstrip(c)], [s.rstrip(c)] and [s.strip(c)] for a one-character [c]. *)
Fixpoint lstrip (c : ascii) (s : string) : string :=
  match s with
  | EmptyString => ""
  | String a s' => if Ascii.eqb a c then lstrip c s' else s
  end.

Fixpoint rstrip (c : ascii) (s : string) : string :=
  match s with
  | EmptyString => ""
  | String a s' =>
      match rstrip c s' with
      | EmptyString => if Ascii.eqb a c then "" else String a ""
      | r => String a r
      end
  end.

Definition strip (c : ascii) (s : string) : string := rstrip c (lstrip c s).

(** [c in s] for a one-character [c]. *)
Fixpoint has_char (c : ascii) (s : string) : bool :=
  match s with
  | EmptyString => false
  | String a s' => Ascii.eqb a c || has_char c s'
  end.

(** [s.lower()] on ASCII letters. *)
Definition lower_char (a : ascii) : ascii :=
  let n := nat_of_ascii a in
  if (65 <=? n)%nat && (n <=? 90)%nat then ascii_of_nat (n + 32) else a.

Fixpoint lower (s : string) : string :=
  match s with
  | EmptyString => ""
  | String a s' => String (lower_char a) (lower s')
  end.

(** [f.readline()] on a file just opened: the first line, or [""]. *)
Definition readline (lines : list string) : string :=
  match lines with
  | [] => ""
  | l :: _ => l
  end.

(** [enumerate(l)] *)
Definition enumerate {A} (l : list A) : list (nat * A) :=
  combine (seq 0 (length l)) l.

(** [str(n)] for a non-negative [int]. *)
Definition str_nat (n : nat) : string := pretty n.

(** [re.sub(r".gz", repl, s)]: every non-overlapping match, leftmost
    first, of one character other than a newline followed by [gz]. *)
Fixpoint sub_dot_gz (repl : string) (s : string) : string :=
  match s with
  | EmptyString => ""
  | String a s' =>
      match s' with
      | String b (String c rest) =>
          if negb (Ascii.eqb a newline) && Ascii.eqb b "g" && Ascii.eqb c "z"
          then repl +:+ sub_dot_gz repl rest
          else String a (sub_dot_gz repl s')
      | _ => String a (sub_dot_gz repl s')
      end
  end.

End Py.

(** ** Python dictionaries, in insertion order *)

Definition dict (V : Type) : Type := list (string * V).

Section Dict.
Context {V : Type}.

(** [d[k]], [None] standing for [KeyError]. *)
Fixpoint dict_get (d : dict V) (k : string) : option V :=
  match d with
  | [] => None
  | (k', v) :: rest => if String.eqb k' k then Some v else dict_get rest k
  end.

(** [k in d.keys()] *)
Definition dict_mem (d : dict V) (k : string) : bool :=
  match dict_get d k with Some _ => true | None => false end.

(** [d[k] = v]: a present key keeps its place, a new key goes last. *)
Fixpoint dict_set (d : dict V) (k : string) (v : V) : dict V :=
  match d with
  | [] => [(k, v)]
  | (k', v') :: rest =>
      if String.eqb k' k then (k', v) :: rest else (k', v') :: dict_set rest k v
  end.

(** [d.keys()] *)
Definition dict_keys (d : dict V) : list string := map fst d.
End Dict.

(** ** The configuration documents *)

(** The properties of one extract definition: [cne], [rt-class],
    [decoder_extracts] and whatever else the document holds. *)
Definition properties : Type := dict string.

(** One entry of [corvilConfig["markets"]]; [m_extracts] is [None] when
    the market has no ["extracts"] key. *)
Record market_cfg : Type := MarketCfg {
  m_extracts : option (dict properties)
}.

(** One entry of [corvilConfig["decoder_extracts"]]. *)
Record decoder_extract : Type := DecoderExtract {
  extract_fields : list string;
  corvil_added_fields : list string
}.

(** [ref_corvil.yaml]; [cne_ip] is
    [corvilConfig["corvil"]["prod"]["cne"][cne]["ip"]]. *)
Record corvil_config : Type := CorvilConfig {
  markets : dict market_cfg;
  decoder_extracts : dict decoder_extract;
  cne_ip : dict string
}.

(** ** Extract catalog: [get_valid_extracts] *)

(** One of the three tests of [get_valid_extracts]: the key is missing,
    or present with an empty value. *)
Definition missing_or_empty (props : properties) (k : string) : bool :=
  negb (dict_mem props k)
  || (dict_mem props k &&
      match dict_get props k with
      | Some v => Nat.eqb (String.length v) 0
      | None => false
      end).

(** The flag [entry_complete] after the three tests. *)
Definition entry_complete (props : properties) : bool :=
  let entry_complete := true in
  let entry_complete :=
    if missing_or_empty props "cne" then false else entry_complete in
  let entry_complete :=
    if missing_or_empty props "rt-class" then false else entry_complete in
  let entry_complete :=
    if missing_or_empty props "decoder_extracts" then false else entry_complete in
  entry_complete.

(** The inner loop: [tmp_dict] after the extracts of one market. *)
Definition valid_of_market (extracts : dict properties) : dict properties :=
  fold_left
    (fun tmp_dict '(extract, props) =>
       if entry_complete props then dict_set tmp_dict extract props else tmp_dict)
    extracts [].

Definition get_valid_extracts (corvilConfig : corvil_config)
  : dict (dict properties) :=
  fold_left
    (fun valid_extracts '(key, value) =>
       match m_extracts value with
       | Some extracts => dict_set valid_extracts key (valid_of_market extracts)
       | None => valid_extracts
       end)
    (markets corvilConfig) [].

(** ** Expected column list (lines 402 to 412 of [main]) *)

Definition field_list (de : decoder_extract) : string :=
  Py.join "," (extract_fields de).

Definition verify_field_list (de : decoder_extract) : list string :=
  let temp_field_list := Py.remove_char Py.dquote (field_list de) in
  corvil_added_fields de ++ Py.split "," temp_field_list.

(** ** Column comparison of [verify_cols] (lines 259 to 277) *)

(** The [while] loop, [n] iterations from index [i]: the index at which
    it breaks, if it does. *)
Fixpoint cols_loop (n i : nat) (verify_field_list col_list : list string)
  : option nat :=
  match n with
  | 0 => None
  | S n' =>
      if negb (String.eqb (nth i col_list "") (nth i verify_field_list ""))
      then Some i
      else cols_loop n' (i + 1) verify_field_list col_list
  end.

(** [verified] and the lines written to the log by the comparison. *)
Definition check_columns (verify_field_list col_list : list string)
  : bool * list string :=
  if negb (Nat.eqb (length verify_field_list) (length col_list)) then
    (false,
     [ "Verification failed. Column count mismatch";
       "Expected Column Count: " +:+ Py.str_nat (length verify_field_list);
       "Actual Column Count: " +:+ Py.str_nat (length col_list) ])
  else
    match cols_loop (length verify_field_list) 0 verify_field_list col_list with
    | Some i =>
        (false,
         [ "Column mismatch at output file column position " +:+ Py.str_nat (i + 1);
           "Expected column name: " +:+ nth i verify_field_list "";
           "Got column name: " +:+ nth i col_list "" ])
    | None => (true, [])
    end.

(** ** The world: filesystem and observable events *)

(** A file, seen through the calls the script makes on it: [as_text] is
    what iterating [open(path)] yields, line by line with the line ends
    kept ([None]: the bytes do not decode as text); [as_gzip] is what
    iterating [gzip.open(path)] yields ([None]: not a gzip stream);
    [size] is [os.path.getsize(path)]. *)
Record file : Type := File {
  as_text : option (list string);
  as_gzip : option (list string);
  size : nat
}.

(** The file left by [open(path, "w")] and the writes that follow. *)
Definition written (content : list string) : file :=
  {| as_text := Some content;
     as_gzip := match content with [] => Some [] | _ => None end;
     size := list_sum (map String.length content) |}.

(** The exceptions the script can meet. *)
Inductive exn : Type :=
| FileNotFoundError (path : string)   (* open, os.remove, os.listdir, getsize *)
| UnicodeDecodeError (path : string)  (* reading bytes that are no text *)
| BadGzipFile (path : string)         (* gzip.open on what is no gzip stream *)
| UnboundLocalError (name : string)   (* a local read before it is bound *)
| KeyError (key : string)             (* d[k] without the key *)
| OverflowError                       (* datetime past its last value *)
| ReError (pattern : string)          (* re.error: the pattern does not compile *)
| ConnectionRefusedError              (* smtplib.SMTP without a server *)
| CommandError (cmd : string).        (* whatever run_command may raise *)

Inductive event : Type :=
| ELog (msg : string)                 (* lf.write(msg) *)
| EPrint (msg : string)               (* print(msg) *)
| EPrintExn (e : exn)                 (* print(e) in the __main__ guard *)
| ERun (cmd msg : string)             (* run_command(cmd, msg) *)
| ERemove (path : string)             (* os.remove(path) *)
| EWrite (path : string)              (* a file opened with "w" and written *)
| EMail (rt_class start_time end_time : string).   (* s.sendmail(...) *)

Record World : Type := MkWorld {
  fs : gmap string file;
  trace : list event
}.

(** The commands run so far, oldest first. *)
Definition commands_run (t : list event) : list string :=
  flat_map (fun e => match e with ERun cmd _ => [cmd] | _ => [] end) t.

(** The lines written to the log so far, oldest first. *)
Definition log_lines (t : list event) : list string :=
  flat_map (fun e => match e with ELog msg => [msg] | _ => [] end) t.

(** ** The monad of the script *)

(** How a computation stops short: an exception, or [sys.exit(code)]
    (a [SystemExit], which [except Exception] does not catch). *)
Inductive abort : Type :=
| Raise (e : exn)
| SysExit (code : Z).

Inductive outcome (A : Type) : Type :=
| Ret (a : A)
| Abort (x : abort).
Arguments Ret {A} a.
Arguments Abort {A} x.

Definition M (A : Type) : Type := World -> outcome A * World.

Definition ret {A} (a : A) : M A := fun w => (Ret a, w).

Definition bind {A B} (c : M A) (k : A -> M B) : M B :=
  fun w =>
    match c w with
    | (Ret a, w') => k a w'
    | (Abort x, w') => (Abort x, w')
    end.

Declare Scope py_scope.
Delimit Scope py_scope with py.
Notation "x <- c ;; k" := (bind c (fun x => k))
  (at level 100, c at next level, right associativity) : py_scope.
Notation "c ;; k" := (bind c (fun _ => k))
  (at level 100, right associativity) : py_scope.
Open Scope py_scope.

Definition raise {A} (e : exn) : M A := fun w => (Abort (Raise e), w).
Definition sys_exit {A} (code : Z) : M A := fun w => (Abort (SysExit code), w).

Definition emit (e : event) : M unit :=
  fun w => (Ret tt, {| fs := fs w; trace := trace w ++ [e] |}).

Definition lf_write (msg : string) : M unit := emit (ELog msg).
Definition print (msg : string) : M unit := emit (EPrint msg).

(** [d[k]] inside the script. *)
Definition lookup_key {V} (d : dict V) (k : string) : M V :=
  match dict_get d k with
  | Some v => ret v
  | None => raise (KeyError k)
  end.

(** [os.path.isfile(path)] *)
Definition isfile (path : string) : M bool :=
  fun w => (Ret (bool_decide (is_Some (fs w !! path))), w).

(** [os.remove(path)] *)
Definition os_remove (path : string) : M unit :=
  fun w =>
    match fs w !! path with
    | Some _ =>
        (Ret tt, {| fs := delete path (fs w); trace := trace w ++ [ERemove path] |})
    | None => (Abort (Raise (FileNotFoundError path)), w)
    end.

(** The lines of [open(path)]. *)
Definition read_lines (path : string) : M (list string) :=
  fun w =>
    match fs w !! path with
    | None => (Abort (Raise (FileNotFoundError path)), w)
    | Some f =>
        match as_text f with
        | Some ls => (Ret ls, w)
        | None => (Abort (Raise (UnicodeDecodeError path)), w)
        end
    end.

(** The lines of [gzip.open(path, mode="rb")]. *)
Definition read_gzip_lines (path : string) : M (list string) :=
  fun w =>
    match fs w !! path with
    | None => (Abort (Raise (FileNotFoundError path)), w)
    | Some f =>
        match as_gzip f with
        | Some ls => (Ret ls, w)
        | None => (Abort (Raise (BadGzipFile path)), w)
        end
    end.

(** [with open(path, "w") as f:] followed by the writes [content]. *)
Definition write_file (path : string) (content : list string) : M unit :=
  fun w =>
    (Ret tt,
     {| fs := <[path := written content]> (fs w);
        trace := trace w ++ [EWrite path] |}).

(** [os.path.getsize(path)] *)
Definition getsize (path : string) : M nat :=
  fun w =>
    match fs w !! path with
    | Some f => (Ret (size f), w)
    | None => (Abort (Raise (FileNotFoundError path)), w)
    end.

(** [for x in l: body(x)] *)
Fixpoint for_each {A} (l : list A) (body : A -> M unit) : M unit :=
  match l with
  | [] => ret tt
  | x :: rest => body x ;; for_each rest body
  end.

(** [os.path.join(a, b)] on POSIX. *)
Definition os_path_join (a b : string) : string :=
  match b with
  | String "/" _ => b
  | _ =>
      match a with
      | EmptyString => b
      | _ => if String.eqb (substring (String.length a - 1) 1 a) "/"
             then a +:+ b else a +:+ "/" +:+ b
      end
  end.

(** ** Command line arguments and the platform *)

(** A [datetime.datetime] parsed by [strptime]. *)
Record datetime : Type := DateTime {
  year : nat; month : nat; day : nat;
  hour : nat; minute : nat; second : nat
}.

(** The namespace [parse_args] returns for the [extract] subcommand. *)
Module Args.
Record t : Type := Make {
  mic : string;
  extract_name : string;
  start_time : datetime;
  end_time : datetime;
  filename : option string;
  compress : bool;
  overwrite : bool;
  console : bool;
  human : bool;
  manifest : bool;
  mnemonic : option string;
  testing : string;
  wildcard : bool;
  no_verify : bool
}.
End Args.

Inductive cli : Type :=
| CliList (mic : string)         (* list --mic MIC *)
| CliExtract (args : Args.t).    (* extract --mic MIC ... *)

Definition cli_mic (c : cli) : string :=
  match c with
  | CliList mic => mic
  | CliExtract args => Args.mic args
  end.

(** What [smtplib] does when [send_mail] runs. *)
Inductive smtp_behaviour : Type :=
| SmtpDelivers
| SmtpSendFails (reason : string)     (* s.sendmail raises *)
| SmtpRefused.                        (* smtplib.SMTP("localhost") raises *)

(** The collaborators of the script whose code is not part of it. *)
Record Platform : Type := MkPlatform {
  (** [os.name] *)
  os_name : string;
  (** [dt.strftime(fmt)] *)
  strftime : datetime -> string -> string;
  (** [dt + datetime.timedelta(seconds=1)]; [None] is [OverflowError] *)
  add_second : datetime -> option datetime;
  (** [str] on the namespace, on a properties [dict], on a [list] *)
  str_args : Args.t -> string;
  str_props : properties -> string;
  str_list : list string -> string;
  (** [Market(config_file_str, mic).m2_dbms] *)
  m2_dbms : string -> string;
  (** [cpm_connect(..., database, environment).get_stored_credentials(key)],
      as (username, password) *)
  get_stored_credentials : string -> string -> string * string;
  (** [run_command(cmd, msg)]: what the command does to the filesystem,
      and whether the helper stops the script *)
  run_command : string -> string -> gmap string file -> option abort * gmap string file;
  (** [re.split(pattern, s)[0]] and [re.match(pattern, s) is not None];
      [None] is [re.error], the pattern does not compile *)
  re_split_head : string -> string -> option string;
  re_match : string -> string -> option bool;
  (** [os.listdir(path)]; [None] is [FileNotFoundError] *)
  os_listdir : gmap string file -> string -> option (list string);
  smtp : smtp_behaviour
}.

Section Controller.
Context (P : Platform).

(** ** [list_extracts] *)
Definition list_extracts (valid_extracts : dict (dict properties))
    (mic : string) : M unit :=
  print ("List of available extracts for mic: " +:+ mic +:+ Py.nl) ;;
  d <- lookup_key valid_extracts mic ;;
  for_each d (fun '(key, value) => print (key +:+ ": " +:+ str_props P value)).

(** ** [send_mail] *)
Definition send_mail (rt_class start_time end_time : string) : M unit :=
  match smtp P with
  | SmtpRefused => raise ConnectionRefusedError
  | SmtpDelivers => emit (EMail rt_class start_time end_time)
  | SmtpSendFails reason => lf_write ("Error sending email: " +:+ reason)
  end.

(** ** [verify_cols] *)
Definition verify_cols (verify_header_filename : string)
    (verify_field_list : list string)
    (rt_class start_time end_time : string) : M bool :=
  lf_write "Running column verification" ;;
  f <- read_lines verify_header_filename ;;
  let header_row := Py.strip Py.newline (Py.readline f) in
  let col_list := Py.split "," header_row in
  let '(verified, report) := check_columns verify_field_list col_list in
  for_each report lf_write ;;
  if negb verified then
    lf_write "Expected Columns:" ;;
    lf_write (str_list P verify_field_list) ;;
    lf_write "Actual Columns:" ;;
    lf_write (str_list P col_list) ;;
    send_mail rt_class start_time end_time ;;
    lf_write "Script terminated with ERROR - exit code 1" ;;
    ret verified
  else
    lf_write "Column verification passed" ;;
    lf_write ("Deleting verification file: " +:+ verify_header_filename) ;;
    os_remove verify_header_filename ;;
    ret verified.

(** ** [file_lcount] *)

(** The loop variable [i] after [for i, _ in enumerate(f): pass];
    [None] when the loop body never ran and [i] was never bound. *)
Definition last_index (f : list string) : option nat :=
  fold_left (fun _ '(i, _) => Some i) (Py.enumerate f) None.

Definition file_lcount (fname : string) : M nat :=
  f <- read_gzip_lines fname ;;
  match last_index f with
  | Some i => ret (i + 1)
  | None => raise (UnboundLocalError "i")
  end.

(** ** [main]: the commands it builds *)

(** [base_cmd.format(...)]: the retrieval invocation; with [wildcard]
    the template has no field list. *)
Definition base_cmd (wildcard : bool)
    (python corvil_utility username password ip_address rt_class
     start_time end_time field_list : string) : string :=
  python +:+ " ./" +:+ corvil_utility +:+ " -c -b -n " +:+ username
    +:+ " -p " +:+ password +:+ " message-csv " +:+ ip_address
    +:+ " " +:+ rt_class
    +:+ " " +:+ Py.dq +:+ start_time +:+ Py.dq
    +:+ " " +:+ Py.dq +:+ end_time +:+ Py.dq
    +:+ (if wildcard then EmptyString else " " +:+ field_list).

(** The locals every branch without [--console] binds alike. *)
Record canary_locals : Type := CanaryLocals {
  test_file_cmd_suffix : string;
  test_filename_remove : string;
  get_csv_header : string;
  get_test_file_csv_header : string
}.

Definition canary_locals_of (test_filename verify_filename verify_test_filename : string)
  : canary_locals :=
  {| test_file_cmd_suffix :=
       " | ./csv-comma2soh | tr '\001' ',' | /bin/gzip > " +:+ test_filename +:+ ".csv.gz";
     test_filename_remove := test_filename +:+ ".csv.gz";
     get_csv_header := "zcat {filename}.csv.gz | sed -n '6p' > " +:+ verify_filename;
     get_test_file_csv_header :=
       "zcat " +:+ test_filename +:+ ".csv.gz | head -1 > " +:+ verify_test_filename |}.

(** The Linux [if]/[elif] chain on the output mode: [cmd_suffix], and
    the canary locals where the branch binds them. *)
Definition linux_suffixes (console human compress : bool)
    (filename test_filename verify_filename verify_test_filename : string)
  : string * option canary_locals :=
  let canary := canary_locals_of test_filename verify_filename verify_test_filename in
  if console && human then
    (" | ./csv-comma2soh | tr '\001' ','", None)
  else if console then
    (" | ./csv-comma2soh", None)
  else if negb console && negb compress && human then
    (" | ./csv-comma2soh | tr '\001' ',' > " +:+ filename +:+ ".csv", Some canary)
  else if negb console && compress && human then
    (" | ./csv-comma2soh | tr '\001' ',' | /bin/gzip > " +:+ filename +:+ ".csv.gz",
     Some canary)
  else if negb console && compress then
    (" | ./csv-comma2soh | /bin/gzip > " +:+ filename +:+ ".csv.gz", Some canary)
  else
    (" | ./csv-comma2soh > " +:+ filename +:+ ".csv", Some canary).

(** [run_command(cmd, msg)] *)
Definition run (cmd msg : string) : M unit :=
  fun w =>
    let '(stop, fs') := run_command P cmd msg (fs w) in
    let w' := {| fs := fs'; trace := trace w ++ [ERun cmd msg] |} in
    match stop with
    | None => (Ret tt, w')
    | Some x => (Abort x, w')
    end.

(** ** [main]: output collision (lines 436 to 452) *)

(** [if os.path.isfile(path): lf.write(msg.format(filename=shown));
    os.remove(path)] with [msg = "Deleting {filename}"]. *)
Definition delete_existing (path shown : string) : M unit :=
  b <- isfile path ;;
  if b then
    lf_write ("Deleting " +:+ shown) ;;
    os_remove path
  else ret tt.

Definition check_output_exists (filename : string) (compress overwrite : bool)
  : M unit :=
  plain <- isfile (filename +:+ ".csv") ;;
  found <- (if plain then ret true
            else if compress then isfile (filename +:+ ".csv.gz")
            else ret false) ;;
  if found then
    if overwrite then
      delete_existing (filename +:+ ".csv") filename ;;
      delete_existing (filename +:+ ".csv.gz") (filename +:+ ".csv.gz")
    else
      lf_write (filename +:+ " found. Please delete or rerun with the overwrite flag.") ;;
      lf_write "Exiting" ;;
      sys_exit 1
  else ret tt.

(** ** [main]: header line of the canary file (lines 596 to 605) *)

(** [for i, line in enumerate(f): if i == 5: first_line = line; break] *)
Fixpoint header_loop (l : list (nat * string)) : option string :=
  match l with
  | [] => None
  | (i, line) :: rest => if Nat.eqb i 5 then Some line else header_loop rest
  end.

Definition first_line (f : list string) : option string :=
  header_loop (Py.enumerate f).

Definition verify_canary (test_filename verify_test_filename : string)
    (final_test_file_command : string) (verify_field_list : list string)
    (rt_class start_time end_time : string) : M unit :=
  run final_test_file_command "Generating test file for column verification" ;;
  lf_write "Generating verification file" ;;
  f <- read_lines test_filename ;;
  write_file verify_test_filename
    (match first_line f with Some line => [line] | None => [] end) ;;
  _ <- verify_cols verify_test_filename verify_field_list rt_class start_time end_time ;;
  lf_write ("Deleting test extract file: " +:+ test_filename +:+ ".csv") ;;
  os_remove (test_filename +:+ ".csv") ;;
  lf_write "---------------------------------------------------------------".

(** ** [main]: manifest (lines 634 to 657) *)

(** [manifestfile] for one matched artifact. *)
Definition manifest_name (size : nat) (testing file_names : string) : string :=
  let manifestfile := Py.sub_dot_gz ".manifest" file_names in
  if (size <? 5000)%nat && String.eqb testing "False"
  then manifestfile +:+ ".error"
  else manifestfile.

(** The body of the loop for one name that matches [rx]. *)
Definition write_manifest (f_path mnemonic testing file_names : string) : M unit :=
  line_count <- file_lcount (os_path_join f_path file_names) ;;
  size <- getsize (os_path_join f_path file_names) ;;
  write_file (os_path_join f_path (manifest_name size testing file_names))
    [mnemonic +:+ "|" +:+ file_names +:+ "|" +:+ Py.str_nat size +:+ "|" +:+ "0" +:+ Py.nl].

(** [[f for f in names if os.path.isfile(os.path.join(f_path, f))]] *)
Fixpoint regular_files (f_path : string) (names : list string) : M (list string) :=
  match names with
  | [] => ret []
  | f :: rest =>
      b <- isfile (os_path_join f_path f) ;;
      r <- regular_files f_path rest ;;
      ret (if b then f :: r else r)
  end.

Definition listdir (path : string) : M (list string) :=
  fun w =>
    match os_listdir P (fs w) path with
    | Some names => (Ret names, w)
    | None => (Abort (Raise (FileNotFoundError path)), w)
    end.

Definition matches (rx file_names : string) : M bool :=
  match re_match P rx file_names with
  | Some b => ret b
  | None => raise (ReError rx)
  end.

Definition manifest_loop (f_path rx mnemonic testing : string)
    (file_list : list string) : M unit :=
  for_each file_list (fun file_names =>
    m <- matches rx file_names ;;
    if m then write_manifest f_path mnemonic testing file_names else ret tt).

Definition make_manifests (f_path f_name mnemonic testing : string) : M unit :=
  names <- listdir f_path ;;
  file_list <- regular_files f_path names ;;
  let rx := "^" +:+ f_name +:+ ".*.gz" in
  manifest_loop f_path rx mnemonic testing file_list.

(** ** [main]: the Linux and Windows pipelines *)

Definition python : string := "python".
Definition corvil_utility : string := "CorvilApiStreamingClient.py".
Definition environment : string := "prod".

(** The request once resolved against the configuration: what the rest
    of [main] reads (lines 397 to 433). *)
Record request : Type := Request {
  r_filename : string;
  r_rt_class : string;
  r_start_time : string;
  r_end_time : string;
  r_verify_field_list : list string;
  r_base_cmd : string;
  r_base_cmd_test_file : string
}.

Definition test_filename_of (filename : string) : string := filename +:+ "_test".
Definition verify_filename_of (filename : string) : string :=
  filename +:+ "_temp_verify.csv".

Definition linux_pipeline (args : Args.t) (r : request) : M unit :=
  let filename := r_filename r in
  let test_filename := test_filename_of filename in
  let verify_filename := verify_filename_of filename in
  let verify_test_filename := verify_filename_of test_filename in
  let compress := Args.compress args in
  let f_name := List.last (Py.split "/" filename) EmptyString in
  f_path <- match re_split_head P f_name filename with
            | Some piece => ret piece
            | None => raise (ReError f_name)
            end ;;
  let '(cmd_suffix, canary) :=
    linux_suffixes (Args.console args) (Args.human args) compress
      filename test_filename verify_filename verify_test_filename in
  suffix <- match canary with
            | Some c => ret (test_file_cmd_suffix c)
            | None => raise (UnboundLocalError "test_file_cmd_suffix")
            end ;;
  let final_test_file_command := r_base_cmd_test_file r +:+ " " +:+ suffix in
  let final_command := r_base_cmd r +:+ " " +:+ cmd_suffix in
  (if negb (Args.console args) && negb (Args.wildcard args)
      && negb (Args.no_verify args)
   then verify_canary test_filename verify_test_filename final_test_file_command
          (r_verify_field_list r) (r_rt_class r) (r_start_time r) (r_end_time r)
   else ret tt) ;;
  run final_command "Running extract" ;;
  (if compress then
     run ("tar -czf " +:+ filename +:+ ".csv.gz " +:+ filename +:+ ".csv")
         "Compressing file" ;;
     lf_write "Deleting uncompressed version" ;;
     os_remove (filename +:+ ".csv")
   else ret tt) ;;
  match Args.mnemonic args with
  | Some mnemonic =>
      if negb (Args.console args) && compress && Args.manifest args
      then make_manifests f_path f_name mnemonic (Args.testing args)
      else ret tt
  | None => ret tt
  end.

Definition windows_pipeline (args : Args.t) (r : request) : M unit :=
  let filename := r_filename r in
  let test_filename := test_filename_of filename in
  let cmd_suffix :=
    if Args.console args then EmptyString else " > " +:+ filename +:+ ".csv" in
  let final_test_file_command :=
    if Args.console args then None
    else Some (r_base_cmd_test_file r +:+ " > " +:+ test_filename +:+ ".csv") in
  let final_command := r_base_cmd r +:+ cmd_suffix in
  (if negb (Args.console args) && negb (Args.wildcard args)
      && negb (Args.no_verify args)
   then match final_test_file_command with
        | Some cmd =>
            run cmd "-Generating test file for column verification----------------"
        | None => raise (UnboundLocalError "final_test_file_command")
        end
   else ret tt) ;;
  run final_command "Running extract".

(** ** [main] *)

Definition fmt_time : string := "%Y-%m-%d %H:%M:%S".
Definition fmt_filename : string := "%Y%m%d_%H-%M-%S".

(** [filename] (lines 420 to 429). *)
Definition output_filename (args : Args.t) : string :=
  match Args.filename args with
  | Some filename => filename
  | None =>
      Args.mic args +:+ "_" +:+ Args.extract_name args
        +:+ "_" +:+ strftime P (Args.start_time args) fmt_filename
        +:+ "_to_" +:+ strftime P (Args.end_time args) fmt_filename
  end.

(** Lines 378 to 452: resolve the request, then the collision check. *)
Definition resolve (corvilConfig : corvil_config) (d : dict properties)
    (args : Args.t) (start_time end_time end_time_verify_str : string)
  : M request :=
  let mic := Args.mic args in
  let extract_name := Args.extract_name args in
  let database := m2_dbms P mic in
  let corvil_credentials :=
    get_stored_credentials P database ("corvil-" +:+ environment) in
  let username := fst corvil_credentials in
  let password := snd corvil_credentials in
  props <- lookup_key d extract_name ;;
  cne <- lookup_key props "cne" ;;
  ip_address <- lookup_key (cne_ip corvilConfig) cne ;;
  rt_class <- lookup_key props "rt-class" ;;
  decoder_extract <- lookup_key props "decoder_extracts" ;;
  de <- lookup_key (decoder_extracts corvilConfig) decoder_extract ;;
  let filename := output_filename args in
  check_output_exists filename (Args.compress args) (Args.overwrite args) ;;
  let cmd := base_cmd (Args.wildcard args) python corvil_utility username password
               ip_address rt_class start_time in
  ret {| r_filename := filename;
         r_rt_class := rt_class;
         r_start_time := start_time;
         r_end_time := end_time;
         r_verify_field_list := verify_field_list de;
         r_base_cmd := cmd end_time (field_list de);
         r_base_cmd_test_file := cmd end_time_verify_str (field_list de) |}.

Definition extract (corvilConfig : corvil_config)
    (valid_extracts : dict (dict properties)) (args : Args.t) : M unit :=
  let mic := Args.mic args in
  let extract_name := Args.extract_name args in
  let start_time := strftime P (Args.start_time args) fmt_time in
  let end_time := strftime P (Args.end_time args) fmt_time in
  end_time_verify_dt <- match add_second P (Args.start_time args) with
                        | Some dt => ret dt
                        | None => raise OverflowError
                        end ;;
  let end_time_verify_str := strftime P end_time_verify_dt fmt_time in
  lf_write ("Command line arguments used to invoke the script: " +:+ str_args P args) ;;
  let operating_system :=
    if String.eqb (Py.lower (os_name P)) "nt" then "windows" else "linux" in
  d <- lookup_key valid_extracts mic ;;
  if negb (dict_mem d extract_name) then
    lf_write "Invalid extract name specified. Please choose one of the valid values below" ;;
    list_extracts valid_extracts mic
  else
    r <- resolve corvilConfig d args start_time end_time end_time_verify_str ;;
    if String.eqb operating_system "linux" then linux_pipeline args r
    else if String.eqb operating_system "windows" then windows_pipeline args r
    else ret tt.

Definition main (corvilConfig : corvil_config) (c : cli) : M unit :=
  let valid_extracts := get_valid_extracts corvilConfig in
  (* get_arg_parser: --mic takes choices=valid_extracts.keys() *)
  if negb (dict_mem valid_extracts (cli_mic c)) then sys_exit 2
  else match c with
       | CliList mic => list_extracts valid_extracts mic
       | CliExtract args => extract corvilConfig valid_extracts args
       end.

(** ** The [__main__] guard: exit status of the process *)
Definition script (corvilConfig : corvil_config) (c : cli) (w : World)
  : Z * World :=
  match main corvilConfig c w with
  | (Ret _, w') => (0%Z, w')
  | (Abort (SysExit code), w') => (code, w')
  | (Abort (Raise e), w') =>
      (0%Z, {| fs := fs w'; trace := trace w' ++ [EPrintExn e] |})
  end.
End Controller.

(** ** The scenario of the specification, as a concrete platform

    Market [M1], extract [E1] of class [C1] at address [10.0.0.5], decoder
    extract [D1] with appended field [ts] and fields [px], [qty]. *)

Module Demo.

Definition pad2 (n : nat) : string :=
  if (n <? 10)%nat then "0" +:+ pretty n else pretty n.

Definition pad4 (n : nat) : string :=
  if (n <? 10)%nat then "000" +:+ pretty n
  else if (n <? 100)%nat then "00" +:+ pretty n
  else if (n <? 1000)%nat then "0" +:+ pretty n
  else pretty n.

Definition directive (dt : datetime) (c : ascii) : string :=
  if Ascii.eqb c "Y" then pad4 (year dt)
  else if Ascii.eqb c "m" then pad2 (month dt)
  else if Ascii.eqb c "d" then pad2 (day dt)
  else if Ascii.eqb c "H" then pad2 (hour dt)
  else if Ascii.eqb c "M" then pad2 (minute dt)
  else if Ascii.eqb c "S" then pad2 (second dt)
  else String "%" (String c EmptyString).

(** [strftime] for the directives the script uses. *)
Fixpoint strftime (dt : datetime) (fmt : string) : string :=
  match fmt with
  | EmptyString => EmptyString
  | String a rest =>
      match rest with
      | String c rest' =>
          if Ascii.eqb a "%" then directive dt c +:+ strftime dt rest'
          else String a (strftime dt rest)
      | EmptyString => String a EmptyString
      end
  end.

Definition is_leap (y : nat) : bool :=
  (y mod 4 =? 0)%nat && (negb (y mod 100 =? 0)%nat || (y mod 400 =? 0)%nat).

Definition days_in_month (y m : nat) : nat :=
  match m with
  | 2 => if is_leap y then 29 else 28
  | 4 | 6 | 9 | 11 => 30
  | _ => 31
  end.

(** One second later on the proleptic Gregorian calendar; nothing
    after the last second of year 9999. *)
Definition add_second (dt : datetime) : option datetime :=
  let '(DateTime y mo d h mi s) := dt in
  if (s <? 59)%nat then Some (DateTime y mo d h mi (s + 1))
  else if (mi <? 59)%nat then Some (DateTime y mo d h (mi + 1) 0)
  else if (h <? 23)%nat then Some (DateTime y mo d (h + 1) 0 0)
  else if (d <? days_in_month y mo)%nat then Some (DateTime y mo (d + 1) 0 0 0)
  else if (mo <? 12)%nat then Some (DateTime y (mo + 1) 1 0 0 0)
  else if (y <? 9999)%nat then Some (DateTime (y + 1) 1 1 0 0 0)
  else None.

(** [str] of a list or a dict of strings that need no escaping. *)
Definition quoted (s : string) : string := "'" +:+ s +:+ "'".

Definition str_list (l : list string) : string :=
  "[" +:+ Py.join ", " (map quoted l) +:+ "]".

Definition str_props (d : properties) : string :=
  "{" +:+ Py.join ", " (map (fun '(k, v) => quoted k +:+ ": " +:+ quoted v) d) +:+ "}".

(** [str] of the namespace, cut short after its first fields. *)
Definition str_args (a : Args.t) : string :=
  "Namespace(execution_mode='extract', mic=" +:+ quoted (Args.mic a)
    +:+ ", extract_name=" +:+ quoted (Args.extract_name a) +:+ ", ...)".

(** The file a shell pipeline ending in [> path] writes when the
    retrieval tool streams [rows]: a gzip stream when [path] ends in
    [.gz], text otherwise. *)
Definition ends_with (suffix s : string) : bool :=
  String.eqb (substring (String.length s - String.length suffix)
                (String.length suffix) s) suffix
  && (String.length suffix <=? String.length s)%nat.

Definition redirect_target (cmd : string) : option string :=
  match Py.split ">" cmd with
  | [] | [_] => None
  | pieces => Some (Py.lstrip " " (List.last pieces EmptyString))
  end.

Definition streamed (rows : list string) (path : string) : file :=
  if ends_with ".gz" path then
    {| as_text := None; as_gzip := Some rows;
       size := list_sum (map String.length rows) |}
  else written rows.

Definition run_command (rows : list string) (cmd msg : string)
    (fs : gmap string file) : option abort * gmap string file :=
  match redirect_target cmd with
  | Some path => (None, <[path := streamed rows path]> fs)
  | None => (None, fs)
  end.

(** Patterns made of letters, digits, [_], [-] and [/] match themselves. *)
Definition literal_char (a : ascii) : bool :=
  let n := nat_of_ascii a in
  ((48 <=? n) && (n <=? 57) || (65 <=? n) && (n <=? 90)
   || (97 <=? n) && (n <=? 122) || (n =? 95) || (n =? 45) || (n =? 47))%nat.

Fixpoint literal (s : string) : bool :=
  match s with
  | EmptyString => true
  | String a s' => literal_char a && literal s'
  end.

Fixpoint before_first (pattern s : string) : string :=
  match s with
  | EmptyString => EmptyString
  | String a s' =>
      if String.prefix pattern s then EmptyString
      else String a (before_first pattern s')
  end.

(** [re.split(pattern, s)[0]] for a non-empty literal pattern. *)
Definition re_split_head (pattern s : string) : option string :=
  if literal pattern && negb (String.eqb pattern EmptyString)
  then Some (before_first pattern s) else None.

(** [re.match(rx, s) is not None] for [rx] of the shape the script
    builds, [^] then a literal then [.*.gz]. *)
Definition re_match (rx s : string) : option bool :=
  match rx with
  | String "^" body =>
      let n := String.length body in
      let lit := substring 0 (n - 5) body in
      if ends_with ".*.gz" body && literal lit then
        let rest := substring (String.length lit) (String.length s) s in
        Some (String.prefix lit s
              && negb (String.eqb (Py.sub_dot_gz EmptyString rest) rest))
      else None
  | _ => None
  end.

(** The names directly under [path], read off the file map. *)
Definition os_listdir (fs : gmap string file) (path : string)
  : option (list string) :=
  if String.eqb path EmptyString then None
  else
    let dir := os_path_join path EmptyString in
    Some (omap (fun k =>
                  let name := substring (String.length dir) (String.length k) k in
                  if String.prefix dir k && negb (String.eqb name EmptyString)
                     && negb (Py.has_char "/" name)
                  then Some name else None)
               (map fst (map_to_list fs))).

Definition platform (rows : list string) : Platform :=
  MkPlatform "posix" strftime add_second str_args str_props str_list
    (fun _ => "m2") (fun _ _ => ("svc", "secret"))
    (run_command rows) re_split_head re_match os_listdir SmtpDelivers.

(** The extract definitions of [M1]: [E1] is complete, [E2] has an
    empty [rt-class], [E3] has no [decoder_extracts]. *)
Definition e2_props : properties :=
  [("cne", "cne1"); ("rt-class", EmptyString); ("decoder_extracts", "D1")].

Definition m1_extracts : dict properties :=
  [("E1", [("cne", "cne1"); ("rt-class", "C1"); ("decoder_extracts", "D1")]);
   ("E2", e2_props);
   ("E3", [("cne", "cne1"); ("rt-class", "C3")])].

Definition m1 : market_cfg := {| m_extracts := Some m1_extracts |}.

Definition config : corvil_config :=
  {| markets := [("M1", m1)];
     decoder_extracts :=
       [("D1", {| extract_fields := ["px"; "qty"];
                  corvil_added_fields := ["ts"] |})];
     cne_ip := [("cne1", "10.0.0.5")] |}.

(** [extract --mic M1 --extract_name E1 --start_time "2024-01-01 00:00:00"
    --end_time "2024-01-01 01:00:00" --filename foo --testing False] *)
Definition args : Args.t :=
  {| Args.mic := "M1";
     Args.extract_name := "E1";
     Args.start_time := DateTime 2024 1 1 0 0 0;
     Args.end_time := DateTime 2024 1 1 1 0 0;
     Args.filename := Some "foo";
     Args.compress := false;
     Args.overwrite := false;
     Args.console := false;
     Args.human := false;
     Args.manifest := false;
     Args.mnemonic := None;
     Args.testing := "False";
     Args.wildcard := false;
     Args.no_verify := false |}.

Definition empty_world : World := {| fs := ∅; trace := [] |}.

End Demo.


(** * Properties *)

(** ** Definitions the statements use *)

(** The world [w] after [events]. *)
Definition logged (w : World) (events : list event) : World :=
  {| fs := fs w; trace := trace w ++ events |}.

(** A computation only appends to the trace. *)
Definition grows {A} (c : M A) : Prop :=
  forall w, exists t, trace (snd (c w)) = trace w ++ t.

(** A computation leaves the file at [path] as it found it. *)
Definition keeps {A} (path : string) (c : M A) : Prop :=
  forall w, fs (snd (c w)) !! path = fs w !! path.

(** The body of the outer loop of [get_valid_extracts]. *)
Definition catalog_step (valid_extracts : dict (dict properties))
    (entry : string * market_cfg) : dict (dict properties) :=
  let '(key, value) := entry in
  match m_extracts value with
  | Some extracts => dict_set valid_extracts key (valid_of_market extracts)
  | None => valid_extracts
  end.

(** An extract definition in which one of the three keys is missing or
    empty. *)
Definition incomplete (props : properties) : Prop :=
  exists k, In k ["cne"; "rt-class"; "decoder_extracts"]
            /\ (dict_get props k = None \/ dict_get props k = Some EmptyString).

(** Header-line selection as the specification words it: the 6th line
    of compressed output, the 1st line of uncompressed output. *)
Definition header_line_spec (compressed : bool) (lines : list string)
  : option string :=
  if compressed then nth_error lines 5 else nth_error lines 0.

(** The test on line 436. *)
Definition output_exists (files : gmap string file) (filename : string)
    (compress : bool) : bool :=
  bool_decide (is_Some (files !! (filename +:+ ".csv")))
  || (compress && bool_decide (is_Some (files !! (filename +:+ ".csv.gz")))).

(** What the overwrite branch logs and removes. *)
Definition removals (files : gmap string file) (filename : string) : list event :=
  (if bool_decide (is_Some (files !! (filename +:+ ".csv")))
   then [ELog ("Deleting " +:+ filename); ERemove (filename +:+ ".csv")] else [])
  ++ (if bool_decide (is_Some (files !! (filename +:+ ".csv.gz")))
      then [ELog ("Deleting " +:+ filename +:+ ".csv.gz");
            ERemove (filename +:+ ".csv.gz")] else []).

(** A path [file_lcount] cannot count: an empty gzip stream, or no gzip
    stream at all. *)
Definition uncountable (files : gmap string file) (path : string) : Prop :=
  exists f, files !! path = Some f /\ (as_gzip f = Some [] \/ as_gzip f = None).

(** The two commands of the Linux branch without [--console]. *)
Definition linux_test_file_command (r : request) : string :=
  let test_filename := test_filename_of (r_filename r) in
  r_base_cmd_test_file r +:+ " "
    +:+ test_file_cmd_suffix
          (canary_locals_of test_filename (verify_filename_of (r_filename r))
             (verify_filename_of test_filename)).

Definition linux_final_command (args : Args.t) (r : request) : string :=
  let test_filename := test_filename_of (r_filename r) in
  r_base_cmd r +:+ " "
    +:+ fst (linux_suffixes (Args.console args) (Args.human args)
               (Args.compress args) (r_filename r) test_filename
               (verify_filename_of (r_filename r))
               (verify_filename_of test_filename)).

Section Statements.
Context (P : Platform).

(** What [list_extracts] prints for the catalog [d] of [mic]. *)
Definition listing (mic : string) (d : dict properties) : list event :=
  EPrint ("List of available extracts for mic: " +:+ mic +:+ Py.nl)
  :: map (fun e => EPrint (fst e +:+ ": " +:+ str_props P (snd e))) d.

(** The first line [main] writes to the log. *)
Definition cmdline_logged (args : Args.t) : event :=
  ELog ("Command line arguments used to invoke the script: " +:+ str_args P args).

(** The request names a complete extract of its market, and the
    configuration holds the address and the decoder extract it needs. *)
Definition resolvable (cfg : corvil_config) (args : Args.t) : Prop :=
  exists d props cne ip_address rt_class decoder de dt,
    dict_get (get_valid_extracts cfg) (Args.mic args) = Some d
    /\ dict_get d (Args.extract_name args) = Some props
    /\ dict_get props "cne" = Some cne
    /\ dict_get (cne_ip cfg) cne = Some ip_address
    /\ dict_get props "rt-class" = Some rt_class
    /\ dict_get props "decoder_extracts" = Some decoder
    /\ dict_get (decoder_extracts cfg) decoder = Some de
    /\ add_second P (Args.start_time args) = Some dt.

(** The pipeline [main] enters once the request is resolved. *)
Definition pipeline (args : Args.t) (r : request) : M unit :=
  if String.eqb (Py.lower (os_name P)) "nt"
  then windows_pipeline P args r else linux_pipeline P args r.
End Statements.

(** ** Worlds and requests of the examples *)

Module Scenario.

Definition line (s : string) : string := s +:+ Py.nl.

(** What the retrieval tool streams. *)
Definition rows : list string := [line "ts,px,qty"; line "1,2,3"].

Definition platform : Platform := Demo.platform rows.

(** A text file at the path [main] opens, with [header] on line 6. *)
Definition canary_text (header : string) : file :=
  written [line "meta1"; line "meta2"; line "meta3"; line "meta4"; line "meta5";
           line header; line "1,2,3"].

(** A directory that holds [foo_test], with [header] on its line 6,
    and [foo_test.csv]. *)
Definition world_with (header : string) : World :=
  {| fs := <["foo_test" := canary_text header]>
             (<["foo_test.csv" := written []]> ∅);
     trace := [] |}.

(** A directory where the output [foo.csv] and an unrelated file exist. *)
Definition world_collision : World :=
  {| fs := <["foo.csv" := written [line "old"]]>
             (<["notes.txt" := written [line "keep"]]> ∅);
     trace := [] |}.

(** A directory [out/] with an empty gzip artifact. *)
Definition empty_gzip : file :=
  {| as_text := None; as_gzip := Some []; size := 20 |}.

Definition world_empty_artifact : World :=
  {| fs := <["out/foo.csv.gz" := empty_gzip]> ∅; trace := [] |}.

(** [--extract_name E9], a name the catalog of [M1] does not hold. *)
Definition unknown_args : Args.t :=
  {| Args.mic := "M1";
     Args.extract_name := "E9";
     Args.start_time := DateTime 2024 1 1 0 0 0;
     Args.end_time := DateTime 2024 1 1 1 0 0;
     Args.filename := Some "foo";
     Args.compress := false;
     Args.overwrite := false;
     Args.console := false;
     Args.human := false;
     Args.manifest := false;
     Args.mnemonic := None;
     Args.testing := "False";
     Args.wildcard := false;
     Args.no_verify := false |}.

(** [Demo.args] with [--overwrite]. *)
Definition overwrite_args : Args.t :=
  {| Args.mic := "M1";
     Args.extract_name := "E1";
     Args.start_time := DateTime 2024 1 1 0 0 0;
     Args.end_time := DateTime 2024 1 1 1 0 0;
     Args.filename := Some "foo";
     Args.compress := false;
     Args.overwrite := true;
     Args.console := false;
     Args.human := false;
     Args.manifest := false;
     Args.mnemonic := None;
     Args.testing := "False";
     Args.wildcard := false;
     Args.no_verify := false |}.

(** The two commands of the run [Demo.args] asks for. *)
Definition retrieval (end_time : string) : string :=
  base_cmd false python corvil_utility "svc" "secret" "10.0.0.5" "C1"
    "2024-01-01 00:00:00" end_time "px,qty".

Definition canary_command : string :=
  retrieval "2024-01-01 00:00:01" +:+ " "
    +:+ " | ./csv-comma2soh | tr '\001' ',' | /bin/gzip > foo_test.csv.gz".

Definition full_command : string :=
  retrieval "2024-01-01 01:00:00" +:+ " " +:+ " | ./csv-comma2soh > foo.csv".

(** A decoder extract whose first field is quoted for the shell. *)
Definition quoted_fields : decoder_extract :=
  {| extract_fields := [Py.dq +:+ "px" +:+ Py.dq; "qty"];
     corvil_added_fields := ["ts"] |}.

End Scenario.

(** ** Definitions the further properties use *)

(** The columns [verify_cols] reads off the lines of the header file. *)
Definition header_columns (ls : list string) : list string :=
  Py.split "," (Py.strip Py.newline (Py.readline ls)).

(** An event that is a call of [run_command]. *)
Definition is_run (e : event) : Prop := exists cmd msg, e = ERun cmd msg.

(** A computation never calls [sys.exit]. *)
Definition quiet {A} (c : M A) : Prop :=
  forall w code, fst (c w) <> Abort (SysExit code).

(** The letters [gz] stand next to each other somewhere in [s]. *)
Fixpoint has_gz (s : string) : bool :=
  match s with
  | String a ((String b _) as s') =>
      (Ascii.eqb a "g" && Ascii.eqb b "z") || has_gz s'
  | _ => false
  end.

Section Reports.
Context (P : Platform).

(** What [send_mail] leaves in the trace when it returns. *)
Definition alert_events (rt_class start_time end_time : string) : list event :=
  match smtp P with
  | SmtpDelivers => [EMail rt_class start_time end_time]
  | SmtpSendFails reason => [ELog ("Error sending email: " +:+ reason)]
  | SmtpRefused => []
  end.

(** What [verify_cols] logs on a mismatch, up to the alert. *)
Definition mismatch_events (expected actual : list string) : list event :=
  ELog "Running column verification"
  :: map ELog (snd (check_columns expected actual))
  ++ [ELog "Expected Columns:"; ELog (str_list P expected);
      ELog "Actual Columns:"; ELog (str_list P actual)].

(** The helper [run_command] stops the script by an exception, if at
    all, and not by [sys.exit]. *)
Definition commands_raise : Prop :=
  forall cmd msg files code,
    fst (run_command P cmd msg files) <> Some (SysExit code).
End Reports.

(** ** Worlds and requests of the further examples *)

Module Cases.

Definition midnight : datetime := DateTime 2024 1 1 0 0 0.

(** The last second [datetime] can hold. *)
Definition last_second : datetime := DateTime 9999 12 31 23 59 59.

(** [Demo.args] from [start], with other output flags. *)
Definition flags (start : datetime) (console compress wildcard : bool) : Args.t :=
  {| Args.mic := "M1";
     Args.extract_name := "E1";
     Args.start_time := start;
     Args.end_time := DateTime 2024 1 1 1 0 0;
     Args.filename := Some "foo";
     Args.compress := compress;
     Args.overwrite := false;
     Args.console := console;
     Args.human := false;
     Args.manifest := false;
     Args.mnemonic := None;
     Args.testing := "False";
     Args.wildcard := wildcard;
     Args.no_verify := false |}.

(** The request [Demo.args] resolves to. *)
Definition foo_request : request :=
  {| r_filename := "foo";
     r_rt_class := "C1";
     r_start_time := "2024-01-01 00:00:00";
     r_end_time := "2024-01-01 01:00:00";
     r_verify_field_list := ["ts"; "px"; "qty"];
     r_base_cmd := Scenario.retrieval "2024-01-01 01:00:00";
     r_base_cmd_test_file := Scenario.retrieval "2024-01-01 00:00:01" |}.

(** A platform on which every command fails. *)
Definition offline : Platform :=
  MkPlatform "posix" Demo.strftime Demo.add_second Demo.str_args Demo.str_props
    Demo.str_list (fun _ => "m2") (fun _ _ => ("svc", "secret"))
    (fun cmd _ files => (Some (Raise (CommandError cmd)), files))
    Demo.re_split_head Demo.re_match Demo.os_listdir SmtpDelivers.

(** [Demo.config] without the address of [cne1]. *)
Definition config_no_address : corvil_config :=
  {| markets := markets Demo.config;
     decoder_extracts := decoder_extracts Demo.config;
     cne_ip := [] |}.

(** A directory that holds the header file of a canary. *)
Definition world_header : World :=
  {| fs := <["foo_test_temp_verify.csv" := written [Scenario.line "ts,px,qty"]]> ∅;
     trace := [] |}.

(** A directory [out/] with a gzip artifact of two lines. *)
Definition artifact : file :=
  {| as_text := None; as_gzip := Some Scenario.rows; size := 16 |}.

Definition world_artifact : World :=
  {| fs := <["out/foo.csv.gz" := artifact]> ∅; trace := [] |}.

(** A directory where the file [main] opens as the canary holds two
    lines only, next to [foo_test.csv]. *)
Definition world_short_canary : World :=
  {| fs := <["foo_test" := written [Scenario.line "ts,px,qty"; Scenario.line "1,2,3"]]>
             (<["foo_test.csv" := written []]> ∅);
     trace := [] |}.

End Cases.

(** ** Running the monad *)

Lemma bind_ret_eq {A B} (a : A) (k : A -> M B) : bind (ret a) k = k a.
Proof. reflexivity. Qed.

Lemma bind_run {A B} (c : M A) (k : A -> M B) w a w' :
  c w = (Ret a, w') -> bind c k w = k a w'.
Proof. intros H. unfold bind. now rewrite H. Qed.

Lemma bind_abort {A B} (c : M A) (k : A -> M B) w x w' :
  c w = (Abort x, w') -> bind c k w = (Abort x, w').
Proof. intros H. unfold bind. now rewrite H. Qed.

Lemma bind_assoc {A B C} (c : M A) (k : A -> M B) (h : B -> M C) w :
  bind (bind c k) h w = bind c (fun a => bind (k a) h) w.
Proof. unfold bind. destruct (c w) as [[a|x] w']; reflexivity. Qed.

Lemma logged_logged w t1 t2 : logged (logged w t1) t2 = logged w (t1 ++ t2).
Proof. unfold logged. simpl. now rewrite <- app_assoc. Qed.

Lemma logged_nil w : logged w [] = w.
Proof. destruct w. unfold logged. simpl. now rewrite app_nil_r. Qed.

Lemma emit_run e w : emit e w = (Ret tt, logged w [e]).
Proof. reflexivity. Qed.

Lemma append_inv_head (s a b : string) : s +:+ a = s +:+ b -> a = b.
Proof. induction s as [|c s IH]; simpl; [auto|]. intros [= H]. auto. Qed.

Lemma csv_ne_gz filename : filename +:+ ".csv" <> filename +:+ ".csv.gz".
Proof. intros H. apply append_inv_head in H. discriminate. Qed.

(** ** Dictionaries *)

Section DictFacts.
Context {V : Type}.
Implicit Types (d : dict V) (k : string) (v : V).

Lemma dict_get_In d k v : dict_get d k = Some v -> In (k, v) d.
Proof.
  induction d as [|[k' v'] d IH]; simpl; [discriminate|].
  destruct (String.eqb_spec k' k) as [->|Hne].
  - intros [= ->]. now left.
  - intros H. right. auto.
Qed.

Lemma dict_get_None d k : dict_get d k = None <-> ~ In k (dict_keys d).
Proof.
  induction d as [|[k' v'] d IH]; simpl.
  - tauto.
  - destruct (String.eqb_spec k' k) as [->|Hne].
    + split; [discriminate | intros H; exfalso; apply H; now left].
    + rewrite IH. split; [intros H [?|?]; congruence | tauto].
Qed.

Lemma dict_get_NoDup d k v :
  List.NoDup (dict_keys d) -> In (k, v) d -> dict_get d k = Some v.
Proof.
  induction d as [|[k' v'] d IH]; simpl; [tauto|].
  intros Hnd [Heq|Hin].
  - injection Heq as -> ->. now rewrite String.eqb_refl.
  - inversion Hnd as [|? ? Hnotin Hnd']; subst.
    destruct (String.eqb_spec k' k) as [->|Hne]; [|auto].
    exfalso. apply Hnotin. change k with (fst (k, v)). now apply in_map.
Qed.

Lemma dict_set_In d k v k0 v0 :
  In (k, v) (dict_set d k0 v0) -> (k = k0 /\ v = v0) \/ In (k, v) d.
Proof.
  induction d as [|[k' v'] d IH]; simpl.
  - intros [[= <- <-]|[]]. now left.
  - destruct (String.eqb_spec k' k0) as [->|Hne]; simpl.
    + intros [[= <- <-]|Hin]; [now left | right; now right].
    + intros [Heq|Hin]; [right; now left|].
      destruct (IH Hin) as [?|?]; [now left | right; now right].
Qed.

Lemma dict_set_fresh d k v :
  ~ In k (dict_keys d) -> dict_set d k v = d ++ [(k, v)].
Proof.
  induction d as [|[k' v'] d IH]; simpl; [reflexivity|].
  intros Hnotin. destruct (String.eqb_spec k' k) as [->|Hne].
  - exfalso. apply Hnotin. now left.
  - f_equal. apply IH. tauto.
Qed.

Lemma dict_get_set_eq d k v : dict_get (dict_set d k v) k = Some v.
Proof.
  induction d as [|[k' v'] d IH]; simpl.
  - now rewrite String.eqb_refl.
  - destruct (String.eqb_spec k' k) as [->|Hne]; simpl.
    + now rewrite String.eqb_refl.
    + destruct (String.eqb_spec k' k); [contradiction | exact IH].
Qed.

Lemma dict_get_set_ne d k k' v :
  k <> k' -> dict_get (dict_set d k v) k' = dict_get d k'.
Proof.
  intros Hne. induction d as [|[k0 v0] d IH]; simpl.
  - destruct (String.eqb_spec k k'); [contradiction | reflexivity].
  - destruct (String.eqb_spec k0 k) as [->|Hne0]; simpl.
    + destruct (String.eqb_spec k k'); [contradiction | reflexivity].
    + destruct (String.eqb_spec k0 k'); [reflexivity | exact IH].
Qed.
End DictFacts.

(** ** Extract catalog *)

(** Every entry of the catalog of a market passed the completeness test. *)
Lemma valid_of_market_complete_acc extracts acc :
  Forall (fun e => entry_complete (snd e) = true) acc ->
  Forall (fun e => entry_complete (snd e) = true)
    (fold_left
       (fun tmp_dict '(extract, props) =>
          if entry_complete props then dict_set tmp_dict extract props else tmp_dict)
       extracts acc).
Proof.
  revert acc. induction extracts as [|[name props] extracts IH]; simpl; [auto|].
  intros acc Hacc. apply IH.
  destruct (entry_complete props) eqn:Hc; [|assumption].
  apply List.Forall_forall. intros [k v] Hin.
  apply dict_set_In in Hin as [[-> ->]|Hin]; [assumption|].
  rewrite List.Forall_forall in Hacc. exact (Hacc _ Hin).
Qed.

Lemma valid_of_market_complete extracts name props :
  In (name, props) (valid_of_market extracts) -> entry_complete props = true.
Proof.
  intros Hin.
  pose proof (valid_of_market_complete_acc extracts [] (List.Forall_nil _)) as H.
  rewrite List.Forall_forall in H. exact (H _ Hin).
Qed.

(** On a dictionary, whose keys are distinct, the inner loop is a filter. *)
Lemma valid_of_market_filter_acc extracts acc :
  List.NoDup (dict_keys acc ++ dict_keys extracts) ->
  fold_left
    (fun tmp_dict '(extract, props) =>
       if entry_complete props then dict_set tmp_dict extract props else tmp_dict)
    extracts acc
  = acc ++ List.filter (fun e => entry_complete (snd e)) extracts.
Proof.
  revert acc. induction extracts as [|[name props] extracts IH]; simpl; intros acc Hnd.
  - now rewrite app_nil_r.
  - apply List.NoDup_remove in Hnd as Hrm. destruct Hrm as [Hnd' Hnotin].
    destruct (entry_complete props) eqn:Hc.
    + rewrite dict_set_fresh by (intros Hin; apply Hnotin, in_or_app; now left).
      rewrite IH.
      * now rewrite <- app_assoc.
      * unfold dict_keys. rewrite map_app. simpl. rewrite <- app_assoc. exact Hnd.
    + rewrite IH by exact Hnd'. reflexivity.
Qed.

Lemma valid_of_market_filter extracts :
  List.NoDup (dict_keys extracts) ->
  valid_of_market extracts = List.filter (fun e => entry_complete (snd e)) extracts.
Proof.
  intros Hnd. unfold valid_of_market.
  now rewrite valid_of_market_filter_acc.
Qed.

Lemma get_valid_extracts_fold cfg :
  get_valid_extracts cfg = fold_left catalog_step (markets cfg) [].
Proof. unfold get_valid_extracts. f_equal. Qed.

Lemma catalog_fold_other ms acc mic :
  ~ In mic (dict_keys ms) ->
  dict_get (fold_left catalog_step ms acc) mic = dict_get acc mic.
Proof.
  revert acc. induction ms as [|[k value] ms IH]; simpl; intros acc Hnotin; [reflexivity|].
  rewrite IH by tauto.
  destruct (m_extracts value); [|reflexivity].
  apply dict_get_set_ne. tauto.
Qed.

Lemma catalog_fold_lookup ms acc mic m extracts :
  List.NoDup (dict_keys ms) ->
  In (mic, m) ms -> m_extracts m = Some extracts ->
  dict_get (fold_left catalog_step ms acc) mic = Some (valid_of_market extracts).
Proof.
  revert acc. induction ms as [|[k value] ms IH]; simpl; intros acc Hnd Hin Hex; [tauto|].
  inversion Hnd as [|? ? Hnotin Hnd']; subst.
  destruct Hin as [[= -> ->]|Hin].
  - rewrite catalog_fold_other by exact Hnotin.
    rewrite Hex. apply dict_get_set_eq.
  - now apply IH.
Qed.

Lemma catalog_fold_complete ms acc :
  Forall (fun e => forall name props, In (name, props) (snd e) ->
                                      entry_complete props = true) acc ->
  Forall (fun e => forall name props, In (name, props) (snd e) ->
                                      entry_complete props = true)
    (fold_left catalog_step ms acc).
Proof.
  revert acc. induction ms as [|[k value] ms IH]; simpl; intros acc Hacc; [assumption|].
  apply IH. destruct (m_extracts value) as [extracts|]; [|assumption].
  apply List.Forall_forall. intros [k' d'] Hin.
  apply dict_set_In in Hin as [[-> ->]|Hin]; simpl.
  - intros name props. apply valid_of_market_complete.
  - rewrite List.Forall_forall in Hacc. exact (Hacc _ Hin).
Qed.

(** Whatever the configuration, a catalog holds complete definitions only. *)
Lemma catalog_entries_complete cfg mic d name props :
  dict_get (get_valid_extracts cfg) mic = Some d ->
  In (name, props) d -> entry_complete props = true.
Proof.
  intros Hget Hin. rewrite get_valid_extracts_fold in Hget.
  pose proof (catalog_fold_complete (markets cfg) [] (List.Forall_nil _)) as H.
  rewrite List.Forall_forall in H.
  exact (H _ (dict_get_In _ _ _ Hget) _ _ Hin).
Qed.

Lemma missing_or_empty_spec props k :
  missing_or_empty props k = true <->
  dict_get props k = None \/ dict_get props k = Some EmptyString.
Proof.
  unfold missing_or_empty, dict_mem.
  destruct (dict_get props k) as [v|]; simpl.
  - destruct v; simpl; split.
    + now right.
    + reflexivity.
    + discriminate.
    + intros [H|H]; discriminate.
  - tauto.
Qed.

Lemma entry_complete_false props : incomplete props <-> entry_complete props = false.
Proof.
  unfold incomplete, entry_complete. split.
  - intros (k & Hk & Hm). apply missing_or_empty_spec in Hm.
    simpl in Hk. destruct Hk as [<-|[<-|[<-|[]]]]; rewrite Hm;
      repeat match goal with |- context [if ?b then _ else _] => destruct b end;
      reflexivity.
  - destruct (missing_or_empty props "cne") eqn:H1.
    { intros _. exists "cne". rewrite <- missing_or_empty_spec. simpl. auto. }
    destruct (missing_or_empty props "rt-class") eqn:H2.
    { intros _. exists "rt-class". rewrite <- missing_or_empty_spec. simpl. auto. }
    destruct (missing_or_empty props "decoder_extracts") eqn:H3.
    { intros _. exists "decoder_extracts". rewrite <- missing_or_empty_spec. simpl. auto. }
    discriminate.
Qed.


Ltac distinct_strings :=
  repeat (constructor; [simpl; intuition discriminate|]); constructor.


(** ** Python strings *)

Module PyFacts.
Import Py.

Lemma remove_char_app c a b :
  remove_char c (a +:+ b) = remove_char c a +:+ remove_char c b.
Proof.
  induction a as [|x a IH]; simpl; [reflexivity|].
  destruct (Ascii.eqb x c); simpl; now rewrite IH.
Qed.

Lemma remove_char_absent c s : has_char c s = false -> remove_char c s = s.
Proof.
  induction s as [|x s IH]; simpl; [reflexivity|].
  destruct (Ascii.eqb x c); simpl; [discriminate|].
  intros H. now rewrite IH.
Qed.

Lemma remove_char_join c sep l :
  has_char c sep = false ->
  remove_char c (join sep l) = join sep (map (remove_char c) l).
Proof.
  intros Hsep. induction l as [|x l IH]; simpl; [reflexivity|].
  destruct l as [|y l]; [reflexivity|].
  rewrite !remove_char_app, IH. simpl.
  now rewrite (remove_char_absent c sep Hsep).
Qed.

Lemma split_absent c s : has_char c s = false -> split c s = [s].
Proof.
  induction s as [|x s IH]; simpl; [reflexivity|].
  destruct (Ascii.eqb x c); simpl; [discriminate|].
  intros H. now rewrite IH.
Qed.

Lemma split_app_sep c a b :
  has_char c a = false ->
  split c (a +:+ String c b) = a :: split c b.
Proof.
  induction a as [|x a IH]; simpl.
  - now rewrite Ascii.eqb_refl.
  - destruct (Ascii.eqb x c); simpl; [discriminate|].
    intros H. now rewrite IH.
Qed.

(** Splitting the joined fields gives the fields back, when there is
    at least one and none holds the separator. *)
Lemma split_join c l :
  l <> [] ->
  (forall f, In f l -> has_char c f = false) ->
  split c (join (String c EmptyString) l) = l.
Proof.
  induction l as [|x l IH]; [congruence|].
  intros _ Hl. destruct l as [|y l].
  - simpl. apply split_absent. apply Hl. now left.
  - change (join (String c EmptyString) (x :: y :: l))
      with (x +:+ String c EmptyString +:+ join (String c EmptyString) (y :: l)).
    change (String c EmptyString +:+ join (String c EmptyString) (y :: l))
      with (String c (join (String c EmptyString) (y :: l))).
    rewrite split_app_sep by (apply Hl; now left).
    f_equal. apply IH; [discriminate|].
    intros f Hf. apply Hl. now right.
Qed.
End PyFacts.

(** ** Expected column list *)

(** C5, as amended. For a decoder extract with at least one extract
    field and no comma or double quote in a field name, the expected
    column list is the appended fields in order followed by the extract
    fields in order. *)
Theorem expected_columns_plain (de : decoder_extract) :
  extract_fields de <> [] ->
  (forall f, In f (extract_fields de) ->
             Py.has_char "," f = false /\ Py.has_char Py.dquote f = false) ->
  verify_field_list de = corvil_added_fields de ++ extract_fields de.
Proof.
  intros Hne Hf. unfold verify_field_list, field_list. f_equal.
  rewrite PyFacts.remove_char_join by reflexivity.
  rewrite (map_ext_in _ (fun f => f)).
  - rewrite map_id. apply PyFacts.split_join; [assumption|].
    intros f Hin. now apply Hf.
  - intros f Hin. apply PyFacts.remove_char_absent. now apply Hf.
Qed.

Lemma expected_columns_witness :
  verify_field_list (DecoderExtract ["px"; "qty"] ["ts"]) = ["ts"; "px"; "qty"].
Proof.
  apply (expected_columns_plain (DecoderExtract ["px"; "qty"] ["ts"])).
  - discriminate.
  - intros f [<-|[<-|[]]]; split; reflexivity.
Defined.

(** C5, as stated, fails: a field quoted for the shell loses its quotes
    in the expected column list. *)
Lemma expected_columns_quoted :
  verify_field_list Scenario.quoted_fields = ["ts"; "px"; "qty"]
  /\ verify_field_list Scenario.quoted_fields
     <> corvil_added_fields Scenario.quoted_fields
        ++ extract_fields Scenario.quoted_fields.
Proof. split; [reflexivity | vm_compute; discriminate]. Qed.

(** ** Column comparison *)

Lemma cols_loop_some n i expected actual j :
  cols_loop n i expected actual = Some j ->
  i <= j < i + n
  /\ nth j actual EmptyString <> nth j expected EmptyString
  /\ (forall k, i <= k < j -> nth k actual EmptyString = nth k expected EmptyString).
Proof.
  revert i. induction n as [|n IH]; simpl; intros i; [discriminate|].
  destruct (String.eqb_spec (nth i actual EmptyString) (nth i expected EmptyString))
    as [Heq|Hne]; simpl.
  - intros H. apply IH in H as (Hj & Hne & Hbefore).
    split; [lia|]. split; [assumption|].
    intros k Hk. destruct (Nat.eq_dec k i) as [->|Hki]; [assumption|].
    apply Hbefore. lia.
  - intros [= <-]. split; [lia|]. split; [assumption|]. intros k Hk. lia.
Qed.

Lemma cols_loop_none n i expected actual :
  cols_loop n i expected actual = None ->
  forall k, i <= k < i + n -> nth k actual EmptyString = nth k expected EmptyString.
Proof.
  revert i. induction n as [|n IH]; simpl; intros i; [intros _ k Hk; lia|].
  destruct (String.eqb_spec (nth i actual EmptyString) (nth i expected EmptyString))
    as [Heq|Hne]; simpl; [|discriminate].
  intros H k Hk. destruct (Nat.eq_dec k i) as [->|Hki]; [assumption|].
  apply (IH _ H). lia.
Qed.

(** C3. When the expected and the actual column lists differ in
    length, the comparison fails with the count report alone (expected
    count, actual count) and compares no position.  When the lengths
    agree, either every position agrees and the comparison passes
    without a report, or it fails with one report, for the first
    position [i] that differs, numbered [i + 1]. *)
Theorem verify_cols_comparison (expected actual : list string) :
  (length expected <> length actual ->
   check_columns expected actual
   = (false,
      [ "Verification failed. Column count mismatch";
        "Expected Column Count: " +:+ Py.str_nat (length expected);
        "Actual Column Count: " +:+ Py.str_nat (length actual) ]))
  /\ (length expected = length actual ->
      ((forall k, k < length expected ->
                  nth k actual EmptyString = nth k expected EmptyString)
       /\ check_columns expected actual = (true, []))
      \/ (exists i,
            i < length expected
            /\ (forall k, k < i -> nth k actual EmptyString = nth k expected EmptyString)
            /\ nth i actual EmptyString <> nth i expected EmptyString
            /\ check_columns expected actual
               = (false,
                  [ "Column mismatch at output file column position "
                      +:+ Py.str_nat (i + 1);
                    "Expected column name: " +:+ nth i expected EmptyString;
                    "Got column name: " +:+ nth i actual EmptyString ]))).
Proof.
  unfold check_columns. split; intros Hlen.
  - destruct (Nat.eqb_spec (length expected) (length actual)); [contradiction|].
    reflexivity.
  - destruct (Nat.eqb_spec (length expected) (length actual)); [|contradiction].
    simpl.
    destruct (cols_loop (length expected) 0 expected actual) as [i|] eqn:Hloop.
    + right. exists i. apply cols_loop_some in Hloop as (Hi & Hne & Hbefore).
      split; [lia|]. split; [intros k Hk; apply Hbefore; lia|]. split; [assumption|].
      reflexivity.
    + left. split; [|reflexivity].
      intros k Hk. apply (cols_loop_none _ _ _ _ Hloop). lia.
Qed.

(** The two comparisons the specification works out. *)
Example count_mismatch :
  check_columns ["a"; "b"] ["a"; "b"; "c"]
  = (false, [ "Verification failed. Column count mismatch";
              "Expected Column Count: 2"; "Actual Column Count: 3" ]).
Proof. reflexivity. Qed.

Example position_mismatch :
  check_columns ["a"; "b"; "c"] ["a"; "x"; "c"]
  = (false, [ "Column mismatch at output file column position 2";
              "Expected column name: b"; "Got column name: x" ]).
Proof. reflexivity. Qed.

(** ** Header line *)

Lemma header_loop_from i (f : list string) :
  header_loop (combine (seq i (length f)) f)
  = if (i <=? 5)%nat then nth_error f (5 - i) else None.
Proof.
  revert i. induction f as [|line f IH]; simpl; intros i.
  - destruct (i <=? 5)%nat; [|reflexivity]. now destruct (5 - i).
  - destruct (Nat.eqb_spec i 5) as [->|Hne]; [reflexivity|].
    rewrite IH.
    destruct (Nat.leb_spec i 5) as [Hle|Hgt].
    + destruct (Nat.leb_spec (S i) 5); [|lia].
      replace (5 - i) with (S (5 - S i)) by lia. reflexivity.
    + destruct (Nat.leb_spec (S i) 5); [lia|reflexivity].
Qed.

Lemma first_line_sixth f : first_line f = nth_error f 5.
Proof. unfold first_line, Py.enumerate. now rewrite header_loop_from. Qed.



(** ** Manifest name *)

(** C6, as amended. The manifest name gets the [.error] suffix exactly
    when the artifact is smaller than 5000 bytes and [--testing] is the
    string [False]: 5000 bytes or more never add it, and no other value
    of [--testing] does, whatever the size. *)
Theorem manifest_name_rule (size : nat) (testing file_names : string) :
  (size < 5000 -> testing = "False" ->
   manifest_name size testing file_names
   = Py.sub_dot_gz ".manifest" file_names +:+ ".error")
  /\ (5000 <= size ->
      manifest_name size testing file_names = Py.sub_dot_gz ".manifest" file_names)
  /\ (testing <> "False" ->
      manifest_name size testing file_names = Py.sub_dot_gz ".manifest" file_names).
Proof.
  unfold manifest_name. repeat split.
  - intros Hs ->. destruct (Nat.ltb_spec size 5000); [reflexivity | lia].
  - intros Hs. destruct (Nat.ltb_spec size 5000); [lia | reflexivity].
  - intros Ht. destruct (String.eqb_spec testing "False"); [contradiction|].
    now rewrite andb_false_r.
Qed.

Example manifest_name_small :
  manifest_name 4999 "False" "foo.csv.gz" = "foo.csv.manifest.error".
Proof. reflexivity. Qed.

Example manifest_name_threshold :
  manifest_name 5000 "False" "foo.csv.gz" = "foo.csv.manifest".
Proof. reflexivity. Qed.

(** C6, as stated, fails: [--testing false] is not the test-run value
    [True], yet an artifact of 4999 bytes gets no [.error] suffix. *)
Lemma manifest_name_lowercase_false :
  "false" <> "True"
  /\ manifest_name 4999 "false" "foo.csv.gz" = "foo.csv.manifest"
  /\ manifest_name 4999 "false" "foo.csv.gz" <> "foo.csv.manifest.error".
Proof. repeat split; discriminate. Qed.

(** ** [file_lcount] and the manifest loop *)

Lemma last_index_from i (f : list string) acc :
  fold_left (fun (_ : option nat) '(i, _) => Some i)
    (combine (seq i (length f)) f) acc
  = match f with
    | [] => acc
    | _ => Some (i + length f - 1)
    end.
Proof.
  revert i acc. induction f as [|x f IH]; simpl; intros i acc; [reflexivity|].
  rewrite IH. destruct f; simpl; f_equal; lia.
Qed.

Lemma last_index_spec f :
  last_index f = match f with [] => None | _ => Some (length f - 1) end.
Proof.
  unfold last_index, Py.enumerate.
  rewrite (last_index_from 0 f None). destruct f; [reflexivity|].
  simpl. f_equal; lia.
Qed.

Lemma file_lcount_counts fname w f ls :
  fs w !! fname = Some f -> as_gzip f = Some ls -> ls <> [] ->
  file_lcount fname w = (Ret (length ls), w).
Proof.
  intros Hf Hgz Hne. unfold file_lcount, bind, read_gzip_lines.
  rewrite Hf, Hgz, last_index_spec.
  destruct ls as [|l ls]; [congruence|]. unfold ret. do 2 f_equal. simpl. lia.
Qed.

Lemma file_lcount_unbound fname w f :
  fs w !! fname = Some f -> as_gzip f = Some [] ->
  file_lcount fname w = (Abort (Raise (UnboundLocalError "i")), w).
Proof.
  intros Hf Hgz. unfold file_lcount, bind, read_gzip_lines.
  now rewrite Hf, Hgz.
Qed.

Lemma file_lcount_uncountable path w :
  uncountable (fs w) path -> exists e, file_lcount path w = (Abort (Raise e), w).
Proof.
  intros (f & Hf & [Hgz|Hgz]).
  - eexists. eapply file_lcount_unbound; eauto.
  - exists (BadGzipFile path). unfold file_lcount, bind, read_gzip_lines.
    now rewrite Hf, Hgz.
Qed.

Lemma file_lcount_pure fname w a w' : file_lcount fname w = (a, w') -> w' = w.
Proof.
  unfold file_lcount, bind, read_gzip_lines.
  destruct (fs w !! fname) as [f|]; [|now intros [= _ <-]].
  destruct (as_gzip f) as [ls|]; [|now intros [= _ <-]].
  destruct (last_index ls); now intros [= _ <-].
Qed.

(** A manifest is text: writing one never makes a path countable. *)
Lemma write_manifest_uncountable f_path mnemonic testing name w path :
  uncountable (fs w) path ->
  uncountable (fs (snd (write_manifest f_path mnemonic testing name w))) path.
Proof.
  intros Hun. unfold write_manifest, bind.
  destruct (file_lcount _ w) as [[n|x] w1] eqn:Hcount;
    apply file_lcount_pure in Hcount as ->; [|exact Hun].
  unfold getsize. destruct (fs w !! os_path_join f_path name) as [g|]; [|exact Hun].
  simpl. destruct Hun as (f & Hf & Hgz).
  match goal with |- uncountable (<[?p := _]> _) _ =>
    destruct (decide (p = path)) as [->|Hne] end.
  - eexists. rewrite lookup_insert_eq. split; [reflexivity|]. now right.
  - exists f. now rewrite lookup_insert_ne.
Qed.

Lemma manifest_loop_aborts (P : Platform) f_path rx mnemonic testing file_list name w :
  In name file_list ->
  re_match P rx name = Some true ->
  uncountable (fs w) (os_path_join f_path name) ->
  exists x w', manifest_loop P f_path rx mnemonic testing file_list w = (Abort x, w').
Proof.
  unfold manifest_loop. intros Hin Hmatch.
  revert w. induction file_list as [|n file_list IH]; [destruct Hin|].
  intros w Hun. simpl. unfold bind at 1.
  destruct (bind (matches P rx n) _ w) as [[[]|x] w1] eqn:Hstep; [|eauto].
  destruct Hin as [->|Hin].
  - exfalso. unfold bind, matches in Hstep. rewrite Hmatch in Hstep. simpl in Hstep.
    destruct (file_lcount_uncountable _ _ Hun) as [e He].
    unfold write_manifest in Hstep. rewrite (bind_abort _ _ _ _ _ He) in Hstep.
    discriminate.
  - apply IH; [assumption|].
    unfold bind, matches in Hstep.
    destruct (re_match P rx n) as [[|]|]; simpl in Hstep; try discriminate.
    + pose proof (write_manifest_uncountable f_path mnemonic testing n w _ Hun) as H.
      now rewrite Hstep in H.
    + now injection Hstep as <-.
Qed.

(** C10. On a gzip file whose decompressed content has at least one
    line [file_lcount] returns the number of lines.  On one with no
    line the loop variable is never bound: it raises the unbound-name
    error, so does the manifest step of that artifact, which writes
    nothing, and the manifest loop over any file list that holds a
    matching name for it stops short. *)
Theorem file_lcount_partial (P : Platform) fname w f ls :
  fs w !! fname = Some f ->
  as_gzip f = Some ls ->
  (ls <> [] -> file_lcount fname w = (Ret (length ls), w))
  /\ (ls = [] ->
      file_lcount fname w = (Abort (Raise (UnboundLocalError "i")), w)
      /\ (forall f_path mnemonic testing name,
            fname = os_path_join f_path name ->
            write_manifest f_path mnemonic testing name w
            = (Abort (Raise (UnboundLocalError "i")), w))
      /\ (forall f_path rx mnemonic testing file_list name,
            fname = os_path_join f_path name ->
            In name file_list ->
            re_match P rx name = Some true ->
            exists x w',
              manifest_loop P f_path rx mnemonic testing file_list w = (Abort x, w'))).
Proof.
  intros Hf Hgz. split.
  - intros Hne. eapply file_lcount_counts; eauto.
  - intros ->. split; [eapply file_lcount_unbound; eauto|]. split.
    + intros f_path mnemonic testing name ->. unfold write_manifest.
      apply bind_abort. eapply file_lcount_unbound; eauto.
    + intros f_path rx mnemonic testing file_list name -> Hin Hmatch.
      eapply manifest_loop_aborts; eauto.
      exists f. split; [assumption | now left].
Qed.

Lemma file_lcount_partial_witness :
  file_lcount "out/foo.csv.gz" Scenario.world_empty_artifact
  = (Abort (Raise (UnboundLocalError "i")), Scenario.world_empty_artifact)
  /\ exists x w',
       manifest_loop Scenario.platform "out/" "^foo.*.gz" "MIC1" "False"
         ["out.log"; "foo.csv.gz"] Scenario.world_empty_artifact
       = (Abort x, w').
Proof.
  destruct (file_lcount_partial Scenario.platform "out/foo.csv.gz"
              Scenario.world_empty_artifact Scenario.empty_gzip []
              eq_refl eq_refl) as [_ Hempty].
  destruct (Hempty eq_refl) as (Hcount & _ & Hloop).
  split; [exact Hcount|].
  apply (Hloop "out/" "^foo.*.gz" "MIC1" "False" ["out.log"; "foo.csv.gz"] "foo.csv.gz").
  - reflexivity.
  - right. now left.
  - reflexivity.
Defined.

Example file_lcount_two_lines :
  file_lcount "a.gz"
    {| fs := {["a.gz" := {| as_text := None; as_gzip := Some ["x"; "y"]; size := 30 |}]};
       trace := [] |}
  = (Ret 2,
     {| fs := {["a.gz" := {| as_text := None; as_gzip := Some ["x"; "y"]; size := 30 |}]};
        trace := [] |}).
Proof. reflexivity. Qed.

(** ** The trace only grows *)

Create HintDb grows.

Lemma grows_ret {A} (a : A) : grows (ret a).
Proof. intros w. exists []. simpl. now rewrite app_nil_r. Qed.

Lemma grows_raise {A} e : grows (@raise A e).
Proof. intros w. exists []. simpl. now rewrite app_nil_r. Qed.

Lemma grows_sys_exit {A} code : grows (@sys_exit A code).
Proof. intros w. exists []. simpl. now rewrite app_nil_r. Qed.

Lemma grows_bind {A B} (c : M A) (k : A -> M B) :
  grows c -> (forall a, grows (k a)) -> grows (bind c k).
Proof.
  intros Hc Hk w. unfold bind. destruct (Hc w) as [t Ht].
  destruct (c w) as [[a|x] w1]; simpl in *.
  - destruct (Hk a w1) as [t' Ht']. exists (t ++ t').
    rewrite Ht', Ht. now rewrite <- app_assoc.
  - now exists t.
Qed.

Lemma grows_emit e : grows (emit e).
Proof. intros w. now exists [e]. Qed.

Lemma grows_lf_write msg : grows (lf_write msg).
Proof. apply grows_emit. Qed.

Lemma grows_print msg : grows (print msg).
Proof. apply grows_emit. Qed.

Lemma grows_lookup_key {V} (d : dict V) k : grows (lookup_key d k).
Proof. unfold lookup_key. destruct (dict_get d k); [apply grows_ret | apply grows_raise]. Qed.

Lemma grows_isfile path : grows (isfile path).
Proof. intros w. exists []. simpl. now rewrite app_nil_r. Qed.

Lemma grows_os_remove path : grows (os_remove path).
Proof.
  intros w. unfold os_remove. destruct (fs w !! path); simpl.
  - now exists [ERemove path].
  - exists []. now rewrite app_nil_r.
Qed.

Lemma grows_read_lines path : grows (read_lines path).
Proof.
  intros w. unfold read_lines. exists [].
  destruct (fs w !! path) as [f|]; [destruct (as_text f)|]; simpl; now rewrite app_nil_r.
Qed.

Lemma grows_read_gzip_lines path : grows (read_gzip_lines path).
Proof.
  intros w. unfold read_gzip_lines. exists [].
  destruct (fs w !! path) as [f|]; [destruct (as_gzip f)|]; simpl; now rewrite app_nil_r.
Qed.

Lemma grows_write_file path content : grows (write_file path content).
Proof. intros w. now exists [EWrite path]. Qed.

Lemma grows_getsize path : grows (getsize path).
Proof.
  intros w. unfold getsize. exists [].
  destruct (fs w !! path); simpl; now rewrite app_nil_r.
Qed.

Lemma grows_for_each {A} (l : list A) (body : A -> M unit) :
  (forall x, grows (body x)) -> grows (for_each l body).
Proof.
  intros Hbody. induction l as [|x l IH]; simpl.
  - apply grows_ret.
  - apply grows_bind; auto.
Qed.

Lemma grows_if {A} (b : bool) (c1 c2 : M A) :
  grows c1 -> grows c2 -> grows (if b then c1 else c2).
Proof. now destruct b. Qed.

#[export] Hint Resolve grows_ret grows_raise grows_sys_exit grows_emit
  grows_lf_write grows_print grows_lookup_key grows_isfile grows_os_remove
  grows_read_lines grows_read_gzip_lines grows_write_file grows_getsize
  grows_if : grows.
#[export] Hint Extern 2 (grows (bind _ _)) => apply grows_bind; [|intros] : grows.
#[export] Hint Extern 2 (grows (for_each _ _)) => apply grows_for_each; intros : grows.
#[export] Hint Extern 3 (grows (match ?x with _ => _ end)) => destruct x : grows.

Section Growth.
Context (P : Platform).

Lemma grows_run cmd msg : grows (run P cmd msg).
Proof.
  intros w. unfold run. destruct (run_command P cmd msg (fs w)) as [[x|] fs'];
    simpl; now exists [ERun cmd msg].
Qed.

Lemma grows_send_mail rt s e : grows (send_mail P rt s e).
Proof. unfold send_mail. destruct (smtp P); auto with grows. Qed.

Hint Resolve grows_run grows_send_mail : grows.

Lemma grows_verify_cols fn fields rt s e : grows (verify_cols P fn fields rt s e).
Proof. unfold verify_cols. auto 20 with grows. Qed.

Lemma grows_file_lcount fname : grows (file_lcount fname).
Proof. unfold file_lcount. auto with grows. Qed.

Hint Resolve grows_verify_cols grows_file_lcount : grows.

Lemma grows_verify_canary tf vtf cmd fields rt s e :
  grows (verify_canary P tf vtf cmd fields rt s e).
Proof. unfold verify_canary. auto 20 with grows. Qed.

Lemma grows_listdir path : grows (listdir P path).
Proof.
  intros w. unfold listdir. exists [].
  destruct (os_listdir P (fs w) path); simpl; now rewrite app_nil_r.
Qed.

Lemma grows_matches rx name : grows (matches P rx name).
Proof. unfold matches. auto with grows. Qed.

Lemma grows_regular_files f_path names : grows (regular_files f_path names).
Proof. induction names; simpl; auto 10 with grows. Qed.

Hint Resolve grows_verify_canary grows_listdir grows_matches
  grows_regular_files : grows.

Lemma grows_write_manifest f_path mn testing name :
  grows (write_manifest f_path mn testing name).
Proof. unfold write_manifest. auto 10 with grows. Qed.

Hint Resolve grows_write_manifest : grows.

Lemma grows_make_manifests f_path f_name mn testing :
  grows (make_manifests P f_path f_name mn testing).
Proof. unfold make_manifests, manifest_loop. auto 20 with grows. Qed.

Hint Resolve grows_make_manifests : grows.

Lemma grows_linux_pipeline args r : grows (linux_pipeline P args r).
Proof.
  unfold linux_pipeline.
  destruct (linux_suffixes _ _ _ _ _ _ _) as [cmd_suffix canary].
  auto 30 with grows.
Qed.

Lemma grows_windows_pipeline args r : grows (windows_pipeline P args r).
Proof. unfold windows_pipeline. auto 30 with grows. Qed.

Lemma grows_pipeline args r : grows (pipeline P args r).
Proof.
  unfold pipeline. destruct (String.eqb _ _);
    [apply grows_windows_pipeline | apply grows_linux_pipeline].
Qed.
End Growth.

(** ** Output collision *)

Lemma check_output_exists_refuses filename compress w :
  output_exists (fs w) filename compress = true ->
  check_output_exists filename compress false w
  = (Abort (SysExit 1),
     logged w [ELog (filename +:+ " found. Please delete or rerun with the overwrite flag.");
               ELog "Exiting"]).
Proof.
  unfold output_exists, check_output_exists, bind, isfile. intros H.
  destruct (bool_decide (is_Some (fs w !! (filename +:+ ".csv")))); simpl in *.
  - unfold logged. simpl. now rewrite <- app_assoc.
  - destruct compress; simpl in *; [|discriminate].
    rewrite H. unfold logged. simpl. now rewrite <- app_assoc.
Qed.

Lemma delete_existing_run path shown w :
  delete_existing path shown w
  = (Ret tt,
     {| fs := delete path (fs w);
        trace := trace w ++
          (if bool_decide (is_Some (fs w !! path))
           then [ELog ("Deleting " +:+ shown); ERemove path] else []) |}).
Proof.
  unfold delete_existing, bind, isfile.
  destruct (fs w !! path) as [f|] eqn:Hf.
  - rewrite bool_decide_eq_true_2 by eauto. simpl.
    unfold os_remove. simpl. rewrite Hf. simpl. now rewrite <- app_assoc.
  - rewrite bool_decide_eq_false_2 by (intros [? ?]; discriminate). simpl.
    rewrite delete_id by exact Hf. rewrite app_nil_r. now destruct w.
Qed.

Lemma check_output_exists_overwrites filename compress w :
  output_exists (fs w) filename compress = true ->
  check_output_exists filename compress true w
  = (Ret tt,
     {| fs := delete (filename +:+ ".csv.gz") (delete (filename +:+ ".csv") (fs w));
        trace := trace w ++ removals (fs w) filename |}).
Proof.
  unfold output_exists, check_output_exists, removals. intros H.
  assert (Hfound :
    bind (isfile (filename +:+ ".csv"))
      (fun plain => if plain then ret true
                    else if compress then isfile (filename +:+ ".csv.gz")
                    else ret false) w = (Ret true, w)).
  { unfold bind, isfile.
    destruct (bool_decide (is_Some (fs w !! (filename +:+ ".csv")))); simpl in *;
      [reflexivity|].
    destruct compress; simpl in *; [now rewrite H | discriminate]. }
  unfold bind at 1 2. unfold bind at 1 in Hfound.
  destruct (isfile (filename +:+ ".csv") w) as [[plain|x] w0]; [|discriminate].
  rewrite Hfound. unfold bind. rewrite !delete_existing_run. simpl.
  rewrite lookup_delete_ne by apply csv_ne_gz.
  now rewrite <- app_assoc.
Qed.

Section Runs.
Context (P : Platform).

(** A resolvable request takes [main] to the collision check and, past
    it, to the pipeline. *)
Lemma main_resolved cfg args w :
  resolvable P cfg args ->
  exists r,
    r_filename r = output_filename P args
    /\ main P cfg (CliExtract args) w
       = bind (check_output_exists (output_filename P args)
                 (Args.compress args) (Args.overwrite args))
           (fun _ => pipeline P args r)
           (logged w [cmdline_logged P args]).
Proof.
  intros (d & props & cne & ip & rt & dec & de & dt &
          Hd & Hprops & Hcne & Hip & Hrt & Hdec & Hde & Hdt).
  eexists (Request _ _ _ _ _ _ _). split; [reflexivity|].
  unfold main, extract. cbv zeta. cbn [cli_mic].
  unfold dict_mem at 1. rewrite Hd. cbv beta iota delta [negb].
  rewrite Hdt, bind_ret_eq. cbv beta.
  unfold lf_write at 1.
  rewrite (bind_run _ _ _ _ _ (emit_run _ w)).
  unfold lookup_key at 1. rewrite Hd, bind_ret_eq. cbv beta.
  unfold dict_mem. rewrite Hprops. cbv beta iota delta [negb].
  unfold resolve, lookup_key. cbv zeta.
  rewrite Hprops, bind_ret_eq; cbv beta.
  rewrite Hcne, bind_ret_eq; cbv beta.
  rewrite Hip, bind_ret_eq; cbv beta.
  rewrite Hrt, bind_ret_eq; cbv beta.
  rewrite Hdec, bind_ret_eq; cbv beta.
  rewrite Hde, bind_ret_eq; cbv beta.
  rewrite bind_assoc. unfold pipeline, cmdline_logged.
  destruct (String.eqb (Py.lower (os_name P)) "nt"); reflexivity.
Qed.

(** C7. For a request that resolves, when the plain output file
    exists, or the compressed one with [--compress]: without
    [--overwrite] the script logs the refusal and exits with status 1,
    having run no command and touched no file; with [--overwrite] the
    check returns normally after removing whichever of the two files
    exist, a missing one being skipped, and every command of the run
    comes after these removals in the trace. *)
Theorem output_collision_policy cfg args w :
  resolvable P cfg args ->
  output_exists (fs w) (output_filename P args) (Args.compress args) = true ->
  (Args.overwrite args = false ->
   script P cfg (CliExtract args) w
   = (1%Z,
      logged w
        [cmdline_logged P args;
         ELog (output_filename P args
               +:+ " found. Please delete or rerun with the overwrite flag.");
         ELog "Exiting"]))
  /\ (Args.overwrite args = true ->
      check_output_exists (output_filename P args) (Args.compress args) true w
      = (Ret tt,
         {| fs := delete (output_filename P args +:+ ".csv.gz")
                    (delete (output_filename P args +:+ ".csv") (fs w));
            trace := trace w ++ removals (fs w) (output_filename P args) |})
      /\ commands_run (removals (fs w) (output_filename P args)) = []
      /\ exists rest,
           trace (snd (script P cfg (CliExtract args) w))
           = trace w ++ cmdline_logged P args
               :: removals (fs w) (output_filename P args) ++ rest).
Proof.
  intros Hres Hexists.
  destruct (main_resolved cfg args w Hres) as (r & Hname & Hmain).
  split; intros Hover.
  - unfold script. rewrite Hmain, Hover.
    erewrite bind_abort by (apply check_output_exists_refuses; exact Hexists).
    unfold logged. simpl. now rewrite <- app_assoc.
  - split; [now apply check_output_exists_overwrites|]. split.
    { unfold removals. repeat case_bool_decide; reflexivity. }
    unfold script. rewrite Hmain, Hover.
    erewrite bind_run by (apply check_output_exists_overwrites; exact Hexists).
    match goal with |- context [pipeline P args r ?w1] =>
      destruct (grows_pipeline P args r w1) as [t Ht];
      destruct (pipeline P args r w1) as [[a|[e|code]] w2]
    end; cbn [snd trace fs logged] in *.
    + exists t. rewrite Ht, <- !app_assoc. reflexivity.
    + exists (t ++ [EPrintExn e]). rewrite Ht, <- !app_assoc. reflexivity.
    + exists t. rewrite Ht, <- !app_assoc. reflexivity.
Qed.
End Runs.

Lemma demo_resolvable : resolvable Scenario.platform Demo.config Demo.args.
Proof.
  exists [("E1", [("cne", "cne1"); ("rt-class", "C1"); ("decoder_extracts", "D1")])],
    [("cne", "cne1"); ("rt-class", "C1"); ("decoder_extracts", "D1")],
    "cne1", "10.0.0.5", "C1", "D1",
    {| extract_fields := ["px"; "qty"]; corvil_added_fields := ["ts"] |},
    (DateTime 2024 1 1 0 0 1).
  repeat split; reflexivity.
Defined.

Lemma output_collision_witness :
  script Scenario.platform Demo.config (CliExtract Demo.args) Scenario.world_collision
  = (1%Z,
     logged Scenario.world_collision
       [cmdline_logged Scenario.platform Demo.args;
        ELog "foo found. Please delete or rerun with the overwrite flag.";
        ELog "Exiting"]).
Proof.
  destruct (output_collision_policy Scenario.platform Demo.config Demo.args
              Scenario.world_collision demo_resolvable eq_refl) as [Hrefuse _].
  exact (Hrefuse eq_refl).
Defined.

(** With [--overwrite], [foo.csv] is removed before the first command
    of the run, and the missing [foo.csv.gz] is passed over. *)
Example overwrite_run :
  let r := script Scenario.platform Demo.config
             (CliExtract Scenario.overwrite_args) Scenario.world_collision in
  firstn 4 (trace (snd r))
  = [ cmdline_logged Scenario.platform Scenario.overwrite_args;
      ELog "Deleting foo";
      ERemove "foo.csv";
      ERun Scenario.canary_command "Generating test file for column verification" ]
  /\ ~ In (ERemove "foo.csv.gz") (trace (snd r)).
Proof. vm_compute. split; [reflexivity|]. intuition discriminate. Qed.

(** ** Unknown extract name *)

Section Listing.
Context (P : Platform).

Lemma for_each_listing (d : dict properties) w :
  for_each d (fun '(key, value) => print (key +:+ ": " +:+ str_props P value)) w
  = (Ret tt,
     logged w (map (fun e => EPrint (fst e +:+ ": " +:+ str_props P (snd e))) d)).
Proof.
  revert w. induction d as [|[key value] d IH]; simpl; intros w.
  - now rewrite logged_nil.
  - unfold bind, print at 1. rewrite emit_run, IH, logged_logged. reflexivity.
Qed.

Lemma list_extracts_run valid_extracts mic d w :
  dict_get valid_extracts mic = Some d ->
  list_extracts P valid_extracts mic w = (Ret tt, logged w (listing P mic d)).
Proof.
  intros Hd. unfold list_extracts, lookup_key. rewrite Hd.
  unfold bind at 1, print at 1. rewrite emit_run. rewrite bind_ret_eq.
  rewrite for_each_listing, logged_logged. reflexivity.
Qed.

(** C2, as amended. When the extract name is not in the catalog of
    the market, the script logs that the name is invalid, prints the
    valid options and returns: the exit status is 0, no command has
    run and no file has changed. *)
Theorem invalid_extract_name_returns_cleanly cfg args w d dt :
  dict_get (get_valid_extracts cfg) (Args.mic args) = Some d ->
  dict_mem d (Args.extract_name args) = false ->
  add_second P (Args.start_time args) = Some dt ->
  script P cfg (CliExtract args) w
  = (0%Z,
     logged w
       (cmdline_logged P args
        :: ELog "Invalid extract name specified. Please choose one of the valid values below"
        :: listing P (Args.mic args) d)).
Proof.
  intros Hd Hname Hdt.
  unfold script, main, extract. cbv zeta. cbn [cli_mic].
  unfold dict_mem at 1. rewrite Hd. cbv beta iota delta [negb].
  rewrite Hdt, bind_ret_eq. cbv beta.
  unfold lf_write at 1.
  rewrite (bind_run _ _ _ _ _ (emit_run _ w)).
  unfold lookup_key at 1. rewrite Hd, bind_ret_eq. cbv beta.
  rewrite Hname. cbv beta iota delta [negb].
  unfold lf_write at 1.
  rewrite (bind_run _ _ _ _ _ (emit_run _ _)).
  rewrite (list_extracts_run _ _ d) by assumption.
  rewrite !logged_logged. reflexivity.
Qed.
End Listing.

Lemma invalid_extract_name_witness :
  script Scenario.platform Demo.config (CliExtract Scenario.unknown_args)
    Demo.empty_world
  = (0%Z,
     logged Demo.empty_world
       (cmdline_logged Scenario.platform Scenario.unknown_args
        :: ELog "Invalid extract name specified. Please choose one of the valid values below"
        :: listing Scenario.platform "M1"
             [("E1", [("cne", "cne1"); ("rt-class", "C1");
                      ("decoder_extracts", "D1")])])).
Proof.
  apply (invalid_extract_name_returns_cleanly Scenario.platform Demo.config
           Scenario.unknown_args Demo.empty_world
           [("E1", [("cne", "cne1"); ("rt-class", "C1"); ("decoder_extracts", "D1")])]
           (DateTime 2024 1 1 0 0 1)); reflexivity.
Defined.

(** C2, as stated, fails: [E9] is not an extract of [M1], and the exit
    status of the run is 0. *)
Lemma invalid_extract_name_exit_status :
  dict_get (get_valid_extracts Demo.config) "M1"
  = Some [("E1", [("cne", "cne1"); ("rt-class", "C1"); ("decoder_extracts", "D1")])]
  /\ fst (script Scenario.platform Demo.config (CliExtract Scenario.unknown_args)
            Demo.empty_world) = 0%Z
  /\ ~ fst (script Scenario.platform Demo.config (CliExtract Scenario.unknown_args)
              Demo.empty_world) <> 0%Z.
Proof.
  split; [reflexivity|].
  assert (H : fst (script Scenario.platform Demo.config
                     (CliExtract Scenario.unknown_args) Demo.empty_world) = 0%Z)
    by (vm_compute; reflexivity).
  split; [exact H | intros Hne; exact (Hne H)].
Qed.

(** ** Files a computation does not touch *)

Create HintDb keeps.

Lemma keeps_ret {A} path (a : A) : keeps path (ret a).
Proof. intros w. reflexivity. Qed.

Lemma keeps_raise {A} path e : keeps path (@raise A e).
Proof. intros w. reflexivity. Qed.

Lemma keeps_bind {A B} path (c : M A) (k : A -> M B) :
  keeps path c -> (forall a, keeps path (k a)) -> keeps path (bind c k).
Proof.
  intros Hc Hk w. unfold bind. specialize (Hc w).
  destruct (c w) as [[a|x] w1]; simpl in *; [|exact Hc].
  now rewrite Hk.
Qed.

Lemma keeps_emit path e : keeps path (emit e).
Proof. intros w. reflexivity. Qed.

Lemma keeps_lf_write path msg : keeps path (lf_write msg).
Proof. apply keeps_emit. Qed.

Lemma keeps_read_lines path p : keeps path (read_lines p).
Proof.
  intros w. unfold read_lines.
  destruct (fs w !! p) as [f|]; [destruct (as_text f)|]; reflexivity.
Qed.

Lemma keeps_os_remove path p : p <> path -> keeps path (os_remove p).
Proof.
  intros Hne w. unfold os_remove. destruct (fs w !! p); simpl; [|reflexivity].
  now apply lookup_delete_ne.
Qed.

Lemma keeps_write_file path p content : p <> path -> keeps path (write_file p content).
Proof. intros Hne w. simpl. now apply lookup_insert_ne. Qed.

Lemma keeps_for_each {A} path (l : list A) (body : A -> M unit) :
  (forall x, keeps path (body x)) -> keeps path (for_each l body).
Proof.
  intros Hbody. induction l as [|x l IH]; simpl.
  - apply keeps_ret.
  - apply keeps_bind; auto.
Qed.

#[export] Hint Resolve keeps_ret keeps_raise keeps_emit keeps_lf_write
  keeps_read_lines keeps_os_remove keeps_write_file : keeps.
#[export] Hint Extern 2 (keeps _ (bind _ _)) => apply keeps_bind; [|intros] : keeps.
#[export] Hint Extern 2 (keeps _ (for_each _ _)) => apply keeps_for_each; intros : keeps.
#[export] Hint Extern 3 (keeps _ (match ?x with _ => _ end)) => destruct x : keeps.

Section Canary.
Context (P : Platform).

Lemma keeps_send_mail path rt s e : keeps path (send_mail P rt s e).
Proof. unfold send_mail. destruct (smtp P); auto with keeps. Qed.

Hint Resolve keeps_send_mail : keeps.

Lemma keeps_verify_cols path fn fields rt s e :
  fn <> path -> keeps path (verify_cols P fn fields rt s e).
Proof. intros Hne. unfold verify_cols. auto 20 with keeps. Qed.

(** Once the canary command has run, nothing in the verification path
    touches the file [<test_filename>.csv.gz] it wrote, whether the
    columns verify or not. *)
Lemma verify_canary_leaves_artifact test_filename cmd fields rt s e w :
  fs (snd (verify_canary P test_filename (verify_filename_of test_filename)
             cmd fields rt s e w))
    !! (test_filename +:+ ".csv.gz")
  = fs (snd (run P cmd "Generating test file for column verification" w))
      !! (test_filename +:+ ".csv.gz").
Proof.
  unfold verify_canary. unfold bind at 1.
  destruct (run P cmd _ w) as [[[]|x] w1]; [|reflexivity].
  cbn [snd].
  assert (Hv : verify_filename_of test_filename <> test_filename +:+ ".csv.gz").
  { unfold verify_filename_of. intros H. apply append_inv_head in H. discriminate. }
  assert (Hc : test_filename +:+ ".csv" <> test_filename +:+ ".csv.gz").
  { intros H. apply append_inv_head in H. discriminate. }
  match goal with |- fs (snd (?c w1)) !! ?p = _ =>
    assert (Hk : keeps p c)
  end.
  { pose proof keeps_verify_cols. auto 20 with keeps. }
  apply Hk.
Qed.
End Canary.

(** ** The verdict of [verify_cols] *)

Lemma for_each_lf_write (l : list string) w :
  for_each l lf_write w = (Ret tt, logged w (map ELog l)).
Proof.
  revert w. induction l as [|x l IH]; simpl; intros w.
  - now rewrite logged_nil.
  - unfold bind, lf_write at 1. rewrite emit_run, IH, logged_logged. reflexivity.
Qed.

Section Verdict.
Context (P : Platform).

(** [verify_cols] reports a mismatch by its return value alone: with
    the header file in place and a mail server to talk to, it returns
    the verdict of the comparison, and removes the header file when the
    verdict is [True]. *)
Lemma verify_cols_returns fn fields rt s e w f ls :
  fs w !! fn = Some f -> as_text f = Some ls ->
  smtp P <> SmtpRefused ->
  exists t,
    verify_cols P fn fields rt s e w
    = (Ret (fst (check_columns fields
                   (Py.split "," (Py.strip Py.newline (Py.readline ls))))),
       {| fs := if fst (check_columns fields
                          (Py.split "," (Py.strip Py.newline (Py.readline ls))))
                then delete fn (fs w) else fs w;
          trace := trace w ++ t |}).
Proof.
  intros Hf Htext Hsmtp. unfold verify_cols.
  unfold lf_write at 1. rewrite (bind_run _ _ _ _ _ (emit_run _ w)).
  assert (Hread : read_lines fn (logged w [ELog "Running column verification"])
                  = (Ret ls, logged w [ELog "Running column verification"])).
  { unfold read_lines. cbn [fs logged]. now rewrite Hf, Htext. }
  rewrite (bind_run _ _ _ _ _ Hread). cbv zeta.
  destruct (check_columns fields _) as [verified report]. cbn [fst].
  rewrite (bind_run _ _ _ _ _ (for_each_lf_write _ _)).
  destruct verified; cbn [negb].
  - unfold bind, lf_write, emit, os_remove, ret. cbn [fs trace logged].
    rewrite Hf. eexists. f_equal. f_equal. rewrite <- !app_assoc. reflexivity.
  - unfold send_mail. destruct (smtp P) as [|reason|]; [| |congruence];
      unfold bind, lf_write, emit, ret; cbn [fs trace logged];
      eexists; f_equal; f_equal; rewrite <- !app_assoc; reflexivity.
Qed.

(** Whatever the verdict, the verification path returns normally. *)
Lemma verify_canary_returns test_filename cmd fields rt s e w w1 f ls :
  run P cmd "Generating test file for column verification" w = (Ret tt, w1) ->
  fs w1 !! test_filename = Some f -> as_text f = Some ls ->
  is_Some (fs w1 !! (test_filename +:+ ".csv")) ->
  smtp P <> SmtpRefused ->
  exists w2,
    verify_canary P test_filename (verify_filename_of test_filename)
      cmd fields rt s e w = (Ret tt, w2).
Proof.
  intros Hrun Hf Htext [g Hcsv] Hsmtp. unfold verify_canary.
  rewrite (bind_run _ _ _ _ _ Hrun).
  unfold lf_write at 1. rewrite (bind_run _ _ _ _ _ (emit_run _ w1)).
  assert (Hread : read_lines test_filename (logged w1 [ELog "Generating verification file"])
                  = (Ret ls, logged w1 [ELog "Generating verification file"])).
  { unfold read_lines. cbn [fs logged]. now rewrite Hf, Htext. }
  rewrite (bind_run _ _ _ _ _ Hread).
  unfold write_file at 1. unfold bind at 1.
  match goal with |- context [bind (verify_cols P ?fn fields rt s e) _ ?w'] =>
    destruct (verify_cols_returns fn fields rt s e w' _ _
                (lookup_insert_eq _ _ _) eq_refl Hsmtp) as [t Hv]
  end.
  rewrite (bind_run _ _ _ _ _ Hv).
  assert (Hne : verify_filename_of test_filename <> test_filename +:+ ".csv").
  { unfold verify_filename_of. intros H. apply append_inv_head in H. discriminate. }
  unfold bind, lf_write, emit, os_remove. cbn [fs trace logged].
  clear Hv.
  destruct (fst (check_columns fields _)).
  - rewrite lookup_delete_ne, lookup_insert_ne, Hcsv by exact Hne. eauto.
  - rewrite lookup_insert_ne, Hcsv by exact Hne. eauto.
Qed.

Lemma linux_suffixes_file human compress filename tf vf vtf :
  snd (linux_suffixes false human compress filename tf vf vtf)
  = Some (canary_locals_of tf vf vtf).
Proof. destruct human, compress; reflexivity. Qed.

Lemma run_traced cmd msg w :
  trace (snd (run P cmd msg w)) = trace w ++ [ERun cmd msg].
Proof.
  unfold run. now destruct (run_command P cmd msg (fs w)) as [[x|] fs'].
Qed.

Lemma bind_traced {A B} (c : M A) (k : A -> M B) w e :
  grows c -> (forall a, grows (k a)) ->
  In e (trace (snd (c w))) -> In e (trace (snd (bind c k w))).
Proof.
  intros Hc Hk Hin. unfold bind.
  destruct (c w) as [[a|x] w1]; [|exact Hin].
  destruct (Hk a w1) as [t Ht]. rewrite Ht. apply in_or_app. now left.
Qed.

(** On Linux, once the verification path has returned, the full
    command runs. *)
Lemma linux_pipeline_runs_full args r w f_path w2 :
  Args.console args = false ->
  Args.wildcard args = false ->
  Args.no_verify args = false ->
  re_split_head P (List.last (Py.split "/" (r_filename r)) EmptyString)
    (r_filename r) = Some f_path ->
  verify_canary P (test_filename_of (r_filename r))
    (verify_filename_of (test_filename_of (r_filename r)))
    (linux_test_file_command r) (r_verify_field_list r)
    (r_rt_class r) (r_start_time r) (r_end_time r) w = (Ret tt, w2) ->
  In (ERun (linux_final_command args r) "Running extract")
     (trace (snd (linux_pipeline P args r w))).
Proof.
  intros Hconsole Hwild Hnov Hsplit Hverify.
  unfold linux_pipeline, linux_final_command, linux_test_file_command in *.
  cbv zeta in *. rewrite Hsplit, bind_ret_eq. cbv beta.
  rewrite Hconsole, Hwild, Hnov in *.
  pose proof (linux_suffixes_file (Args.human args) (Args.compress args)
                (r_filename r) (test_filename_of (r_filename r))
                (verify_filename_of (r_filename r))
                (verify_filename_of (test_filename_of (r_filename r)))) as Hsnd.
  destruct (linux_suffixes false _ _ _ _ _ _) as [cmd_suffix canary].
  cbn [fst snd] in *. subst canary.
  rewrite bind_ret_eq. cbn [negb andb].
  rewrite (bind_run _ _ _ _ _ Hverify).
  apply bind_traced.
  - apply grows_run.
  - intros a. pose proof (grows_make_manifests P). pose proof (grows_run P).
    auto 20 with grows.
  - rewrite run_traced. apply in_or_app. right. now left.
Qed.

(** On Linux the verdict of the comparison decides nothing: when the
    canary command returns, the file [main] opens is readable,
    [<test_filename>.csv] is there to remove and the mail server
    answers, the full command runs, on a mismatch as on a match. *)
Lemma linux_pipeline_ignores_verdict args r w w1 f ls f_path :
  Args.console args = false ->
  Args.wildcard args = false ->
  Args.no_verify args = false ->
  re_split_head P (List.last (Py.split "/" (r_filename r)) EmptyString)
    (r_filename r) = Some f_path ->
  run P (linux_test_file_command r)
    "Generating test file for column verification" w = (Ret tt, w1) ->
  fs w1 !! test_filename_of (r_filename r) = Some f ->
  as_text f = Some ls ->
  is_Some (fs w1 !! (test_filename_of (r_filename r) +:+ ".csv")) ->
  smtp P <> SmtpRefused ->
  In (ERun (linux_final_command args r) "Running extract")
     (trace (snd (linux_pipeline P args r w))).
Proof.
  intros Hconsole Hwild Hnov Hsplit Hrun Hf Htext Hcsv Hsmtp.
  destruct (verify_canary_returns (test_filename_of (r_filename r))
              (linux_test_file_command r) (r_verify_field_list r)
              (r_rt_class r) (r_start_time r) (r_end_time r)
              w w1 f ls Hrun Hf Htext Hcsv Hsmtp) as [w2 Hverify].
  eapply linux_pipeline_runs_full; eauto.
Qed.
End Verdict.

(** ** The runs that contradict the specification *)

(** C1 (defect of the script). On Linux the verdict of [verify_cols]
    stops nothing: once the canary command has returned, the file
    [main] opens is readable, [<test_filename>.csv] exists and the mail
    server answers, the full retrieval command runs.  In the run below
    the canary file has [volume] where [qty] is expected: [verify_cols]
    logs the mismatch, mails the alert and logs that the script
    terminated with exit code 1; [main] drops its verdict, the full
    command runs next, [foo.csv] is written, and the exit status is 0. *)
Theorem schema_mismatch_runs_full_extract :
  (forall P args r w w1 f ls f_path,
      Args.console args = false ->
      Args.wildcard args = false ->
      Args.no_verify args = false ->
      re_split_head P (List.last (Py.split "/" (r_filename r)) EmptyString)
        (r_filename r) = Some f_path ->
      run P (linux_test_file_command r)
        "Generating test file for column verification" w = (Ret tt, w1) ->
      fs w1 !! test_filename_of (r_filename r) = Some f ->
      as_text f = Some ls ->
      is_Some (fs w1 !! (test_filename_of (r_filename r) +:+ ".csv")) ->
      smtp P <> SmtpRefused ->
      In (ERun (linux_final_command args r) "Running extract")
         (trace (snd (linux_pipeline P args r w))))
  /\ (let r := script Scenario.platform Demo.config (CliExtract Demo.args)
                 (Scenario.world_with "ts,px,volume") in
      fst r = 0%Z
      /\ log_lines (trace (snd r))
         = [ "Command line arguments used to invoke the script: "
               +:+ Demo.str_args Demo.args;
             "Generating verification file";
             "Running column verification";
             "Column mismatch at output file column position 3";
             "Expected column name: qty";
             "Got column name: volume";
             "Expected Columns:";
             "['ts', 'px', 'qty']";
             "Actual Columns:";
             "['ts', 'px', 'volume']";
             "Script terminated with ERROR - exit code 1";
             "Deleting test extract file: foo_test.csv";
             "---------------------------------------------------------------" ]
      /\ commands_run (trace (snd r))
         = [Scenario.canary_command; Scenario.full_command]
      /\ List.last (trace (snd r)) (ELog EmptyString)
         = ERun Scenario.full_command "Running extract"
      /\ In (EMail "C1" "2024-01-01 00:00:00" "2024-01-01 01:00:00") (trace (snd r))
      /\ fs (snd r) !! "foo.csv" = Some (written Scenario.rows)).
Proof.
  split; [intros; eapply linux_pipeline_ignores_verdict; eauto|].
  vm_compute. repeat split. do 12 right. now left.
Qed.

(** C8 (defect of the script). The canary command writes
    [foo_test.csv.gz]; the clean-up after verification removes
    [foo_test.csv].  Nothing in the verification path touches the
    artifact, and after the whole run it is still there, both when the
    columns verify and when they do not. *)
Theorem canary_artifact_survives :
  (forall P test_filename cmd fields rt s e w,
      fs (snd (verify_canary P test_filename (verify_filename_of test_filename)
                 cmd fields rt s e w))
        !! (test_filename +:+ ".csv.gz")
      = fs (snd (run P cmd "Generating test file for column verification" w))
          !! (test_filename +:+ ".csv.gz"))
  /\ (let passed := script Scenario.platform Demo.config (CliExtract Demo.args)
                      (Scenario.world_with "ts,px,qty") in
      In (ELog "Column verification passed") (trace (snd passed))
      /\ In (ERemove "foo_test.csv") (trace (snd passed))
      /\ fs (snd passed) !! "foo_test.csv.gz"
         = Some (Demo.streamed Scenario.rows "foo_test.csv.gz"))
  /\ (let failed := script Scenario.platform Demo.config (CliExtract Demo.args)
                      (Scenario.world_with "ts,px,volume") in
      In (ELog "Script terminated with ERROR - exit code 1") (trace (snd failed))
      /\ In (ERemove "foo_test.csv") (trace (snd failed))
      /\ fs (snd failed) !! "foo_test.csv.gz"
         = Some (Demo.streamed Scenario.rows "foo_test.csv.gz")).
Proof.
  split; [intros; apply verify_canary_leaves_artifact|].
  split; vm_compute; repeat split; tauto.
Qed.

(** In a directory without [foo_test], the file [main] opens is not the
    one the canary command wrote: the run stops there, before
    [verify_cols] and before the full command, with exit status 0. *)
Example fresh_directory_run :
  let r := script Scenario.platform Demo.config (CliExtract Demo.args)
             Demo.empty_world in
  fst r = 0%Z
  /\ commands_run (trace (snd r)) = [Scenario.canary_command]
  /\ List.last (trace (snd r)) (ELog EmptyString)
     = EPrintExn (FileNotFoundError "foo_test")
  /\ fs (snd r) !! "foo_test.csv.gz"
     = Some (Demo.streamed Scenario.rows "foo_test.csv.gz").
Proof. vm_compute. repeat split. Qed.

(** * Further properties of the script *)

Ltac norm_trace :=
  repeat (rewrite <- ?app_assoc; cbn [app]); reflexivity.

(** ** The catalog of [get_valid_extracts] *)



Lemma complete_lookups props :
  entry_complete props = true ->
  forall k, In k ["cne"; "rt-class"; "decoder_extracts"] ->
            exists v, dict_get props k = Some v /\ v <> EmptyString.
Proof.
  intros Hc k Hk.
  destruct (dict_get props k) as [v|] eqn:Hv.
  - exists v. split; [reflexivity|]. intros ->.
    assert (H : incomplete props) by (exists k; auto).
    apply entry_complete_false in H. congruence.
  - assert (H : incomplete props) by (exists k; auto).
    apply entry_complete_false in H. congruence.
Qed.

(** X2. The three lookups [main] makes in a definition it took from
    the catalog, [cne], [rt-class] and [decoder_extracts], never raise
    [KeyError], and none of them yields the empty string. *)
Theorem catalog_lookups_never_fail cfg mic d name props :
  dict_get (get_valid_extracts cfg) mic = Some d ->
  dict_get d name = Some props ->
  exists cne rt_class decoder,
    dict_get props "cne" = Some cne /\ cne <> EmptyString
    /\ dict_get props "rt-class" = Some rt_class /\ rt_class <> EmptyString
    /\ dict_get props "decoder_extracts" = Some decoder /\ decoder <> EmptyString.
Proof.
  intros Hd Hprops.
  pose proof (catalog_entries_complete _ _ _ _ _ Hd (dict_get_In _ _ _ Hprops)) as Hc.
  destruct (complete_lookups props Hc "cne") as (cne & ? & ?); [simpl; auto|].
  destruct (complete_lookups props Hc "rt-class") as (rt & ? & ?); [simpl; auto|].
  destruct (complete_lookups props Hc "decoder_extracts") as (dec & ? & ?);
    [simpl; auto|].
  exists cne, rt, dec. auto 10.
Qed.

Lemma catalog_lookups_witness :
  exists cne rt_class decoder,
    dict_get (V:=string) [("cne", "cne1"); ("rt-class", "C1"); ("decoder_extracts", "D1")]
      "cne" = Some cne /\ cne <> EmptyString
    /\ dict_get (V:=string) [("cne", "cne1"); ("rt-class", "C1"); ("decoder_extracts", "D1")]
         "rt-class" = Some rt_class /\ rt_class <> EmptyString
    /\ dict_get (V:=string) [("cne", "cne1"); ("rt-class", "C1"); ("decoder_extracts", "D1")]
         "decoder_extracts" = Some decoder /\ decoder <> EmptyString.
Proof.
  apply (catalog_lookups_never_fail Demo.config "M1"
           [("E1", [("cne", "cne1"); ("rt-class", "C1"); ("decoder_extracts", "D1")])]
           "E1"); reflexivity.
Defined.

Lemma dict_mem_set {V} (d : dict V) k v k' :
  dict_mem (dict_set d k v) k' = String.eqb k k' || dict_mem d k'.
Proof.
  unfold dict_mem. destruct (String.eqb_spec k k') as [->|Hne].
  - now rewrite dict_get_set_eq.
  - now rewrite dict_get_set_ne.
Qed.

Lemma catalog_fold_keys ms acc mic :
  dict_mem (fold_left catalog_step ms acc) mic = true <->
  dict_mem acc mic = true
  \/ exists m extracts, In (mic, m) ms /\ m_extracts m = Some extracts.
Proof.
  revert acc. induction ms as [|[k value] ms IH]; intros acc; simpl.
  - split; [auto | intros [H|(m & e & [] & _)]; exact H].
  - rewrite IH. destruct (m_extracts value) as [extracts|] eqn:Hex.
    + rewrite dict_mem_set. split.
      * intros [H|(m & e & Hin & Hm)].
        -- apply orb_true_iff in H as [H|H]; [|now left].
           apply String.eqb_eq in H as ->. right. exists value, extracts.
           split; [now left | assumption].
        -- right. exists m, e. split; [now right | assumption].
      * intros [H|(m & e & [Heq|Hin] & Hm)].
        -- left. rewrite H. apply orb_true_r.
        -- injection Heq as -> ->. left. now rewrite String.eqb_refl.
        -- right. eauto.
    + split.
      * intros [H|(m & e & Hin & Hm)]; [now left|].
        right. exists m, e. split; [now right|assumption].
      * intros [H|(m & e & [Heq|Hin] & Hm)]; [now left | | right; eauto].
        injection Heq as -> ->. congruence.
Qed.

(** X3. The markets of the catalog, which are the values [--mic]
    accepts, are the markets of the configuration that have an
    [extracts] key: a market all of whose definitions are incomplete is
    still listed, with an empty catalog, and a market without the key
    is not. *)
Theorem catalog_markets cfg mic :
  dict_mem (get_valid_extracts cfg) mic = true <->
  exists m extracts, In (mic, m) (markets cfg) /\ m_extracts m = Some extracts.
Proof.
  rewrite get_valid_extracts_fold, catalog_fold_keys. split; [|auto].
  intros [H|H]; [discriminate | exact H].
Qed.

(** ** [list], the market argument and the lookups of [main] *)

Section Requests.
Context (P : Platform).

(** X4. [list --mic MIC] for a market of the catalog prints the
    heading and one line per valid extract, in catalog order, writes
    nothing to the log, runs no command, touches no file and ends with
    exit status 0. *)
Theorem list_prints_catalog cfg mic d w :
  dict_get (get_valid_extracts cfg) mic = Some d ->
  script P cfg (CliList mic) w = (0%Z, logged w (listing P mic d)).
Proof.
  intros Hd. unfold script, main. cbn [cli_mic].
  unfold dict_mem. rewrite Hd. cbv beta iota delta [negb].
  now rewrite (list_extracts_run P _ _ d).
Qed.

(** X5. A market that the configuration does not hold, or holds
    without an [extracts] key, is not among the choices of [--mic]:
    either subcommand ends with exit status 2 before anything is
    logged, printed, run or removed. *)
Theorem market_without_extracts_is_refused cfg c w :
  (forall m, In (cli_mic c, m) (markets cfg) -> m_extracts m = None) ->
  script P cfg c w = (2%Z, w).
Proof.
  intros Hnone. unfold script, main.
  destruct (dict_mem (get_valid_extracts cfg) (cli_mic c)) eqn:Hmem; [|reflexivity].
  exfalso. rewrite get_valid_extracts_fold in Hmem.
  apply catalog_fold_keys in Hmem as [Hmem|(m & extracts & Hin & Hex)];
    [discriminate|].
  rewrite (Hnone m Hin) in Hex. discriminate.
Qed.

(** X6. When the start time is the last second a [datetime] holds,
    computing the end time of the canary overflows: the script prints
    the error and ends with exit status 0, before the first line of the
    log. *)
Theorem last_second_overflows cfg args w :
  dict_mem (get_valid_extracts cfg) (Args.mic args) = true ->
  add_second P (Args.start_time args) = None ->
  script P cfg (CliExtract args) w = (0%Z, logged w [EPrintExn OverflowError]).
Proof.
  intros Hmem Hdt. unfold script, main, extract. cbn [cli_mic].
  rewrite Hmem. cbv beta iota delta [negb]. rewrite Hdt. reflexivity.
Qed.

(** [main] for a request whose extract name is in the catalog, up to
    the lookups in the configuration. *)
Lemma main_named cfg args w d props dt :
  dict_get (get_valid_extracts cfg) (Args.mic args) = Some d ->
  dict_get d (Args.extract_name args) = Some props ->
  add_second P (Args.start_time args) = Some dt ->
  main P cfg (CliExtract args) w
  = bind (resolve P cfg d args (strftime P (Args.start_time args) fmt_time)
            (strftime P (Args.end_time args) fmt_time) (strftime P dt fmt_time))
      (fun r => pipeline P args r) (logged w [cmdline_logged P args]).
Proof.
  intros Hd Hprops Hdt.
  unfold main, extract. cbv zeta. cbn [cli_mic].
  unfold dict_mem at 1. rewrite Hd. cbv beta iota delta [negb].
  rewrite Hdt, bind_ret_eq. cbv beta.
  unfold lf_write at 1.
  rewrite (bind_run _ _ _ _ _ (emit_run _ w)).
  unfold lookup_key at 1. rewrite Hd, bind_ret_eq. cbv beta.
  unfold dict_mem. rewrite Hprops. cbv beta iota delta [negb].
  unfold bind, pipeline, cmdline_logged.
  destruct (resolve _ _ _ _ _ _ _ _) as [[r|x] w1]; [|reflexivity].
  destruct (String.eqb (Py.lower (os_name P)) "nt"); reflexivity.
Qed.

(** X7. The catalog vouches for the three keys of a definition, not
    for what they name: when the configuration has no address for the
    [cne] of the extract, or no decoder extract of the given name, the
    script logs the command line, prints the missing key and ends with
    exit status 0, without the collision check and without any
    command. *)
Theorem missing_configuration_key cfg args w d props dt cne rt_class decoder :
  dict_get (get_valid_extracts cfg) (Args.mic args) = Some d ->
  dict_get d (Args.extract_name args) = Some props ->
  add_second P (Args.start_time args) = Some dt ->
  dict_get props "cne" = Some cne ->
  dict_get props "rt-class" = Some rt_class ->
  dict_get props "decoder_extracts" = Some decoder ->
  (dict_get (cne_ip cfg) cne = None ->
   script P cfg (CliExtract args) w
   = (0%Z, logged w [cmdline_logged P args; EPrintExn (KeyError cne)]))
  /\ (is_Some (dict_get (cne_ip cfg) cne) ->
      dict_get (decoder_extracts cfg) decoder = None ->
      script P cfg (CliExtract args) w
      = (0%Z, logged w [cmdline_logged P args; EPrintExn (KeyError decoder)])).
Proof.
  intros Hd Hprops Hdt Hcne Hrt Hdec.
  unfold script. rewrite (main_named cfg args w d props dt Hd Hprops Hdt).
  unfold resolve, lookup_key. cbv zeta.
  rewrite Hprops, bind_ret_eq; cbv beta.
  rewrite Hcne, bind_ret_eq; cbv beta.
  split.
  - intros Hip. rewrite Hip. unfold bind, raise, logged. cbn [fs trace].
    now rewrite <- app_assoc.
  - intros [ip Hip] Hde. rewrite Hip, bind_ret_eq; cbv beta.
    rewrite Hrt, bind_ret_eq; cbv beta.
    rewrite Hdec, bind_ret_eq; cbv beta.
    rewrite Hde. unfold bind, raise, logged. cbn [fs trace].
    now rewrite <- app_assoc.
Qed.
End Requests.

Lemma list_prints_catalog_witness :
  script Scenario.platform Demo.config (CliList "M1") Demo.empty_world
  = (0%Z,
     logged Demo.empty_world
       (listing Scenario.platform "M1"
          [("E1", [("cne", "cne1"); ("rt-class", "C1"); ("decoder_extracts", "D1")])])).
Proof.
  apply (list_prints_catalog Scenario.platform Demo.config "M1"
           [("E1", [("cne", "cne1"); ("rt-class", "C1"); ("decoder_extracts", "D1")])]
           Demo.empty_world).
  reflexivity.
Defined.

Lemma unknown_market_witness :
  script Scenario.platform Demo.config (CliList "M2") Demo.empty_world
  = (2%Z, Demo.empty_world).
Proof.
  apply (market_without_extracts_is_refused Scenario.platform Demo.config
           (CliList "M2") Demo.empty_world).
  intros m [H|[]]. discriminate H.
Defined.

Lemma last_second_witness :
  script Scenario.platform Demo.config
    (CliExtract (Cases.flags Cases.last_second false false false)) Demo.empty_world
  = (0%Z, logged Demo.empty_world [EPrintExn OverflowError]).
Proof.
  apply (last_second_overflows Scenario.platform Demo.config
           (Cases.flags Cases.last_second false false false) Demo.empty_world);
    reflexivity.
Defined.

Lemma missing_address_witness :
  script Scenario.platform Cases.config_no_address (CliExtract Demo.args)
    Demo.empty_world
  = (0%Z,
     logged Demo.empty_world
       [cmdline_logged Scenario.platform Demo.args; EPrintExn (KeyError "cne1")]).
Proof.
  destruct (missing_configuration_key Scenario.platform Cases.config_no_address
              Demo.args Demo.empty_world
              [("E1", [("cne", "cne1"); ("rt-class", "C1"); ("decoder_extracts", "D1")])]
              [("cne", "cne1"); ("rt-class", "C1"); ("decoder_extracts", "D1")]
              (DateTime 2024 1 1 0 0 1) "cne1" "C1" "D1"
              eq_refl eq_refl eq_refl eq_refl eq_refl eq_refl) as [Haddress _].
  exact (Haddress eq_refl).
Defined.

(** ** The comparison and the effects of [verify_cols] *)

Lemma nth_ext_strings (l1 l2 : list string) :
  length l1 = length l2 ->
  (forall k, k < length l1 -> nth k l2 EmptyString = nth k l1 EmptyString) ->
  l2 = l1.
Proof.
  intros Hlen H. apply (List.nth_ext _ _ EmptyString EmptyString); [congruence|].
  intros n Hn. apply H. lia.
Qed.

Lemma check_columns_same (l : list string) : check_columns l l = (true, []).
Proof.
  unfold check_columns. rewrite Nat.eqb_refl. simpl.
  destruct (cols_loop (length l) 0 l l) as [i|] eqn:Hloop; [|reflexivity].
  apply cols_loop_some in Hloop as (_ & Hne & _). congruence.
Qed.

Lemma check_columns_differ (expected actual : list string) :
  actual <> expected ->
  fst (check_columns expected actual) = false
  /\ snd (check_columns expected actual) <> [].
Proof.
  intros Hdiff. unfold check_columns.
  destruct (Nat.eqb_spec (length expected) (length actual)) as [Hlen|Hlen]; simpl.
  - destruct (cols_loop (length expected) 0 expected actual) as [i|] eqn:Hloop;
      [split; [reflexivity | discriminate]|].
    exfalso. apply Hdiff. apply nth_ext_strings; [assumption|].
    intros k Hk. apply (cols_loop_none _ _ _ _ Hloop). lia.
  - split; [reflexivity | discriminate].
Qed.

(** X8. The comparison of [verify_cols] passes exactly when the
    columns read from the header are the expected list, name for name
    and in order; and it reports something exactly when it fails. *)
Theorem verification_passes_iff_equal (expected actual : list string) :
  (fst (check_columns expected actual) = true <-> actual = expected)
  /\ (snd (check_columns expected actual) = [] <-> actual = expected).
Proof.
  split; split.
  - intros Hpass. destruct (decide (actual = expected)) as [|Hd]; [assumption|].
    apply check_columns_differ in Hd as [Hf _]. congruence.
  - intros ->. now rewrite check_columns_same.
  - intros Hrep. destruct (decide (actual = expected)) as [|Hd]; [assumption|].
    apply check_columns_differ in Hd as [_ Hf]. contradiction.
  - intros ->. now rewrite check_columns_same.
Qed.

Module PyLines.
Import Py.

Lemma has_char_app c a b : has_char c (a +:+ b) = has_char c a || has_char c b.
Proof. induction a as [|x a IH]; simpl; [reflexivity|]. now rewrite IH, orb_assoc. Qed.

Lemma rstrip_line c s :
  has_char c s = false -> rstrip c (s +:+ String c EmptyString) = s.
Proof.
  induction s as [|x s IH]; simpl.
  - now rewrite Ascii.eqb_refl.
  - destruct (Ascii.eqb x c) eqn:Hx; simpl; [discriminate|].
    intros H. rewrite IH by exact H. now destruct s.
Qed.

(** Stripping the line end off a line that holds no other one. *)
Lemma strip_line c s : has_char c s = false -> strip c (s +:+ String c EmptyString) = s.
Proof.
  intros H. unfold strip. destruct s as [|x s].
  - simpl. now rewrite Ascii.eqb_refl.
  - change ((String x s) +:+ String c EmptyString)
      with (String x (s +:+ String c EmptyString)).
    assert (Hx : Ascii.eqb x c = false).
    { simpl in H. now destruct (Ascii.eqb x c). }
    cbn [lstrip]. rewrite Hx.
    change (String x (s +:+ String c EmptyString))
      with ((String x s) +:+ String c EmptyString).
    now apply rstrip_line.
Qed.

Lemma has_char_join c sep (l : list string) :
  has_char c sep = false ->
  (forall f, In f l -> has_char c f = false) ->
  has_char c (join sep l) = false.
Proof.
  intros Hsep. induction l as [|x l IH]; intros Hl; [reflexivity|].
  destruct l as [|y l].
  - simpl. apply Hl. now left.
  - change (join sep (x :: y :: l)) with (x +:+ sep +:+ join sep (y :: l)).
    rewrite !has_char_app, (Hl x (or_introl eq_refl)), Hsep. simpl.
    apply IH. intros f Hf. apply Hl. now right.
Qed.
End PyLines.

(** X9. A header line made of the expected column names joined by
    commas, with its line end, reads back as the expected list and
    passes the comparison with nothing reported, as long as the list is
    not empty and no name holds a comma or a line end. *)
Theorem rendered_header_verifies (cols : list string) :
  cols <> [] ->
  (forall f, In f cols -> Py.has_char "," f = false /\ Py.has_char Py.newline f = false) ->
  header_columns [Py.join "," cols +:+ Py.nl] = cols
  /\ check_columns cols (header_columns [Py.join "," cols +:+ Py.nl]) = (true, []).
Proof.
  intros Hne Hcols.
  assert (Hjoin : Py.has_char Py.newline (Py.join "," cols) = false).
  { apply PyLines.has_char_join; [reflexivity|]. intros f Hf. now apply Hcols. }
  assert (Hsplit : header_columns [Py.join "," cols +:+ Py.nl] = cols).
  { unfold header_columns. cbn [Py.readline]. unfold Py.nl.
    rewrite PyLines.strip_line by exact Hjoin.
    apply PyFacts.split_join; [assumption|]. intros f Hf. now apply Hcols. }
  split; [exact Hsplit|]. rewrite Hsplit. apply check_columns_same.
Qed.

Lemma rendered_header_witness :
  header_columns [Py.join "," ["ts"; "px"; "qty"] +:+ Py.nl] = ["ts"; "px"; "qty"]
  /\ check_columns ["ts"; "px"; "qty"]
       (header_columns [Py.join "," ["ts"; "px"; "qty"] +:+ Py.nl]) = (true, []).
Proof.
  apply (rendered_header_verifies ["ts"; "px"; "qty"]).
  - discriminate.
  - intros f [<-|[<-|[<-|[]]]]; split; reflexivity.
Defined.

Section Effects.
Context (P : Platform).

End Effects.


(** ** The collision check *)

Lemma check_output_exists_absent filename compress overwrite w :
  output_exists (fs w) filename compress = false ->
  check_output_exists filename compress overwrite w = (Ret tt, w).
Proof.
  unfold output_exists, check_output_exists, bind, isfile. intros H.
  apply orb_false_iff in H as [Hcsv Hgz]. rewrite Hcsv.
  destruct compress; simpl in *; [now rewrite Hgz | reflexivity].
Qed.

Lemma output_exists_absent (files : gmap string file) filename compress :
  files !! (filename +:+ ".csv") = None ->
  compress = false \/ files !! (filename +:+ ".csv.gz") = None ->
  output_exists files filename compress = false.
Proof.
  intros Hcsv Hgz. unfold output_exists.
  rewrite Hcsv. rewrite bool_decide_eq_false_2 by (intros [? ?]; discriminate).
  destruct Hgz as [->|Hgz]; [reflexivity|].
  rewrite Hgz. rewrite bool_decide_eq_false_2 by (intros [? ?]; discriminate).
  now destruct compress.
Qed.

(** X11. When the plain output file is absent, and the compressed one
    too or [--compress] is not given, the collision check does nothing
    at all, whatever [--overwrite] says: no log line, no removal.  A
    compressed file left by an earlier run is therefore not seen by a
    run without [--compress]. *)
Theorem no_collision_is_a_no_op filename compress overwrite w :
  fs w !! (filename +:+ ".csv") = None ->
  compress = false \/ fs w !! (filename +:+ ".csv.gz") = None ->
  check_output_exists filename compress overwrite w = (Ret tt, w).
Proof.
  intros Hcsv Hgz. apply check_output_exists_absent.
  now apply output_exists_absent.
Qed.

Lemma no_collision_witness :
  check_output_exists "foo" true true Demo.empty_world = (Ret tt, Demo.empty_world).
Proof.
  apply (no_collision_is_a_no_op "foo" true true Demo.empty_world).
  - reflexivity.
  - right. reflexivity.
Defined.

(** X12. After the overwrite branch neither output file exists, every
    other file is as it was, and running the check again, with any
    flags, finds nothing to do. *)
Theorem overwrite_removes_only_the_output filename compress w :
  output_exists (fs w) filename compress = true ->
  let w1 := snd (check_output_exists filename compress true w) in
  fs w1 !! (filename +:+ ".csv") = None
  /\ fs w1 !! (filename +:+ ".csv.gz") = None
  /\ (forall path, path <> filename +:+ ".csv" -> path <> filename +:+ ".csv.gz" ->
                   fs w1 !! path = fs w !! path)
  /\ (forall compress' overwrite',
        check_output_exists filename compress' overwrite' w1 = (Ret tt, w1)).
Proof.
  intros Hex. rewrite (check_output_exists_overwrites _ _ _ Hex). cbn [snd fs].
  assert (Hcsv : delete (filename +:+ ".csv.gz") (delete (filename +:+ ".csv") (fs w))
                   !! (filename +:+ ".csv") = None).
  { rewrite lookup_delete_ne by (intros H; symmetry in H; now apply csv_ne_gz in H).
    apply lookup_delete_eq. }
  assert (Hgz : delete (filename +:+ ".csv.gz") (delete (filename +:+ ".csv") (fs w))
                  !! (filename +:+ ".csv.gz") = None) by apply lookup_delete_eq.
  split; [exact Hcsv|]. split; [exact Hgz|]. split.
  - intros path H1 H2. now rewrite !lookup_delete_ne by congruence.
  - intros compress' overwrite'. apply check_output_exists_absent.
    apply output_exists_absent; cbn [fs]; auto.
Qed.

Lemma overwrite_witness :
  fs (snd (check_output_exists "foo" false true Scenario.world_collision)) !! "foo.csv"
  = None
  /\ fs (snd (check_output_exists "foo" false true Scenario.world_collision))
       !! "foo.csv.gz" = None
  /\ (forall path, path <> "foo.csv" -> path <> "foo.csv.gz" ->
        fs (snd (check_output_exists "foo" false true Scenario.world_collision)) !! path
        = fs Scenario.world_collision !! path)
  /\ (forall compress' overwrite',
        check_output_exists "foo" compress' overwrite'
          (snd (check_output_exists "foo" false true Scenario.world_collision))
        = (Ret tt, snd (check_output_exists "foo" false true Scenario.world_collision))).
Proof.
  apply (overwrite_removes_only_the_output "foo" false Scenario.world_collision).
  reflexivity.
Defined.

(** ** The pipelines *)

Lemma linux_suffixes_console human compress filename tf vf vtf :
  snd (linux_suffixes true human compress filename tf vf vtf) = None.
Proof. now destruct human. Qed.

Lemma flags_resolvable console compress wildcard :
  resolvable Scenario.platform Demo.config
    (Cases.flags Cases.midnight console compress wildcard).
Proof.
  exists [("E1", [("cne", "cne1"); ("rt-class", "C1"); ("decoder_extracts", "D1")])],
    [("cne", "cne1"); ("rt-class", "C1"); ("decoder_extracts", "D1")],
    "cne1", "10.0.0.5", "C1", "D1",
    {| extract_fields := ["px"; "qty"]; corvil_added_fields := ["ts"] |},
    (DateTime 2024 1 1 0 0 1).
  repeat split; reflexivity.
Defined.

Section Console.
Context (P : Platform).

(** X13. On Linux, [--console] binds no suffix for the canary command:
    building that command fails on the unbound local, so a run with
    [--console] logs its command line, prints the error and ends with
    exit status 0 without running any command. *)
Theorem console_mode_runs_nothing_on_linux cfg args w :
  resolvable P cfg args ->
  output_exists (fs w) (output_filename P args) (Args.compress args) = false ->
  Args.console args = true ->
  String.eqb (Py.lower (os_name P)) "nt" = false ->
  exists e,
    script P cfg (CliExtract args) w
    = (0%Z, logged w [cmdline_logged P args; EPrintExn e])
    /\ (is_Some (re_split_head P
                   (List.last (Py.split "/" (output_filename P args)) EmptyString)
                   (output_filename P args)) ->
        e = UnboundLocalError "test_file_cmd_suffix").
Proof.
  intros Hres Hnone Hconsole Hos.
  destruct (main_resolved P cfg args w Hres) as (r & Hname & Hmain).
  unfold script. rewrite Hmain.
  rewrite (bind_run _ _ _ _ _
             (check_output_exists_absent _ _ _ (logged w [cmdline_logged P args]) Hnone)).
  unfold pipeline. rewrite Hos.
  unfold linux_pipeline. cbv zeta. rewrite Hname.
  destruct (re_split_head P _ _) as [f_path|].
  - rewrite bind_ret_eq. cbv beta. rewrite Hconsole.
    pose proof (linux_suffixes_console (Args.human args) (Args.compress args)
                  (output_filename P args) (test_filename_of (output_filename P args))
                  (verify_filename_of (output_filename P args))
                  (verify_filename_of (test_filename_of (output_filename P args)))) as Hsnd.
    destruct (linux_suffixes true _ _ _ _ _ _) as [cmd_suffix canary].
    cbn [snd] in Hsnd. subst canary.
    eexists. split; [|reflexivity].
    unfold bind, raise, logged. cbn [fs trace]. f_equal. f_equal. norm_trace.
  - eexists. split.
    + unfold bind, raise, logged. cbn [fs trace]. f_equal. f_equal. norm_trace.
    + intros [? ?]. discriminate.
Qed.
End Console.

Lemma console_mode_witness :
  exists e,
    script Scenario.platform Demo.config
      (CliExtract (Cases.flags Cases.midnight true false false)) Demo.empty_world
    = (0%Z,
       logged Demo.empty_world
         [cmdline_logged Scenario.platform (Cases.flags Cases.midnight true false false);
          EPrintExn e])
    /\ (is_Some (Demo.re_split_head "foo" "foo") ->
        e = UnboundLocalError "test_file_cmd_suffix").
Proof.
  apply (console_mode_runs_nothing_on_linux Scenario.platform Demo.config
           (Cases.flags Cases.midnight true false false) Demo.empty_world).
  - apply flags_resolvable.
  - reflexivity.
  - reflexivity.
  - reflexivity.
Defined.

Section Pipelines.
Context (P : Platform).

Lemma run_result cmd msg w :
  run P cmd msg w
  = (match fst (run_command P cmd msg (fs w)) with
     | None => Ret tt
     | Some x => Abort x
     end,
     {| fs := snd (run_command P cmd msg (fs w));
        trace := trace w ++ [ERun cmd msg] |}).
Proof. unfold run. now destruct (run_command P cmd msg (fs w)) as [[x|] fs']. Qed.


(** The Linux branch without [--console], once the directory of the
    output has been split off. *)
Lemma linux_pipeline_file args r w f_path :
  Args.console args = false ->
  re_split_head P (List.last (Py.split "/" (r_filename r)) EmptyString)
    (r_filename r) = Some f_path ->
  linux_pipeline P args r w
  = bind (if negb (Args.wildcard args) && negb (Args.no_verify args)
          then verify_canary P (test_filename_of (r_filename r))
                 (verify_filename_of (test_filename_of (r_filename r)))
                 (linux_test_file_command r) (r_verify_field_list r)
                 (r_rt_class r) (r_start_time r) (r_end_time r)
          else ret tt)
      (fun _ =>
         bind (run P (linux_final_command args r) "Running extract")
           (fun _ =>
              bind (if Args.compress args then
                      bind (run P ("tar -czf " +:+ r_filename r +:+ ".csv.gz "
                                     +:+ r_filename r +:+ ".csv") "Compressing file")
                        (fun _ => bind (lf_write "Deleting uncompressed version")
                                    (fun _ => os_remove (r_filename r +:+ ".csv")))
                    else ret tt)
                (fun _ =>
                   match Args.mnemonic args with
                   | Some mnemonic =>
                       if Args.compress args && Args.manifest args
                       then make_manifests P f_path
                              (List.last (Py.split "/" (r_filename r)) EmptyString)
                              mnemonic (Args.testing args)
                       else ret tt
                   | None => ret tt
                   end))) w.
Proof.
  intros Hconsole Hsplit.
  unfold linux_pipeline, linux_final_command, linux_test_file_command.
  cbv zeta. rewrite Hsplit, bind_ret_eq. cbv beta. rewrite Hconsole.
  pose proof (linux_suffixes_file (Args.human args) (Args.compress args)
                (r_filename r) (test_filename_of (r_filename r))
                (verify_filename_of (r_filename r))
                (verify_filename_of (test_filename_of (r_filename r)))) as Hsnd.
  destruct (linux_suffixes false _ _ _ _ _ _) as [cmd_suffix canary].
  cbn [fst snd] in *. subst canary.
  rewrite bind_ret_eq. reflexivity.
Qed.

(** X15. With [--wildcard] or [--no_verify] the Linux branch skips the
    canary altogether: the first thing it does is run the full
    retrieval command. *)
Theorem verification_is_skipped args r w f_path :
  Args.console args = false ->
  Args.wildcard args = true \/ Args.no_verify args = true ->
  re_split_head P (List.last (Py.split "/" (r_filename r)) EmptyString)
    (r_filename r) = Some f_path ->
  exists rest,
    trace (snd (linux_pipeline P args r w))
    = trace w ++ ERun (linux_final_command args r) "Running extract" :: rest.
Proof.
  intros Hconsole Hskip Hsplit.
  rewrite (linux_pipeline_file args r w f_path Hconsole Hsplit).
  assert (Hif : negb (Args.wildcard args) && negb (Args.no_verify args) = false).
  { destruct Hskip as [-> | ->]; [reflexivity | apply andb_false_r]. }
  rewrite Hif, bind_ret_eq.
  unfold bind at 1. rewrite run_result.
  destruct (fst (run_command P _ _ (fs w))) as [x|].
  - exists []. reflexivity.
  - match goal with |- exists rest, trace (snd (?c ?w1)) = _ =>
      assert (Hg : grows c);
      [ pose proof (grows_run P); pose proof (grows_make_manifests P);
        auto 20 with grows
      | destruct (Hg w1) as [t Ht]; exists t; rewrite Ht; cbn [trace];
        norm_trace ]
    end.
Qed.

(** X16. When the canary command fails, the Linux branch stops right
    there: nothing is read, verified, mailed or removed, and the full
    retrieval command does not run. *)
Theorem failing_canary_stops_the_run args r w f_path x files :
  Args.console args = false ->
  Args.wildcard args = false ->
  Args.no_verify args = false ->
  re_split_head P (List.last (Py.split "/" (r_filename r)) EmptyString)
    (r_filename r) = Some f_path ->
  run_command P (linux_test_file_command r)
    "Generating test file for column verification" (fs w) = (Some x, files) ->
  linux_pipeline P args r w
  = (Abort x,
     {| fs := files;
        trace := trace w ++ [ERun (linux_test_file_command r)
                               "Generating test file for column verification"] |}).
Proof.
  intros Hconsole Hwild Hnov Hsplit Hrun.
  rewrite (linux_pipeline_file args r w f_path Hconsole Hsplit).
  rewrite Hwild, Hnov. cbn [negb andb].
  apply bind_abort. unfold verify_canary. apply bind_abort.
  rewrite run_result, Hrun. reflexivity.
Qed.

(** X17. With [--compress] the full command already pipes through
    gzip into [<filename>.csv.gz]; the script then runs [tar] on
    [<filename>.csv] and removes that file.  Unless one of the two
    commands leaves a plain [<filename>.csv] behind, the removal raises
    [FileNotFoundError] and no manifest is written. *)
Theorem compress_needs_the_plain_file args r w f_path files1 files2 :
  Args.console args = false ->
  Args.compress args = true ->
  Args.wildcard args = true \/ Args.no_verify args = true ->
  re_split_head P (List.last (Py.split "/" (r_filename r)) EmptyString)
    (r_filename r) = Some f_path ->
  run_command P (linux_final_command args r) "Running extract" (fs w)
  = (None, files1) ->
  run_command P ("tar -czf " +:+ r_filename r +:+ ".csv.gz "
                   +:+ r_filename r +:+ ".csv") "Compressing file" files1
  = (None, files2) ->
  files2 !! (r_filename r +:+ ".csv") = None ->
  (exists pipe, linux_final_command args r
                = r_base_cmd r +:+ " " +:+ pipe +:+ r_filename r +:+ ".csv.gz")
  /\ linux_pipeline P args r w
     = (Abort (Raise (FileNotFoundError (r_filename r +:+ ".csv"))),
        {| fs := files2;
           trace := trace w ++
             [ERun (linux_final_command args r) "Running extract";
              ERun ("tar -czf " +:+ r_filename r +:+ ".csv.gz "
                      +:+ r_filename r +:+ ".csv") "Compressing file";
              ELog "Deleting uncompressed version"] |}).
Proof.
  intros Hconsole Hcompress Hskip Hsplit Hfull Htar Hnone. split.
  - unfold linux_final_command. rewrite Hconsole, Hcompress. cbv zeta.
    destruct (Args.human args); cbn [linux_suffixes andb negb fst];
      eexists; reflexivity.
  - rewrite (linux_pipeline_file args r w f_path Hconsole Hsplit).
    assert (Hif : negb (Args.wildcard args) && negb (Args.no_verify args) = false).
    { destruct Hskip as [-> | ->]; [reflexivity | apply andb_false_r]. }
    rewrite Hif, bind_ret_eq, Hcompress.
    unfold bind at 1. rewrite run_result, Hfull. cbn [fst snd].
    apply bind_abort.
    unfold bind at 1. rewrite run_result. cbn [fs]. rewrite Htar. cbn [fst snd].
    unfold bind, lf_write, emit, os_remove. cbn [fs trace]. rewrite Hnone.
    f_equal. f_equal. norm_trace.
Qed.
End Pipelines.

Lemma verification_is_skipped_witness :
  exists rest,
    trace (snd (linux_pipeline Scenario.platform
                  (Cases.flags Cases.midnight false false true)
                  Cases.foo_request Demo.empty_world))
    = trace Demo.empty_world
        ++ ERun (linux_final_command (Cases.flags Cases.midnight false false true)
                   Cases.foo_request) "Running extract" :: rest.
Proof.
  apply (verification_is_skipped Scenario.platform
           (Cases.flags Cases.midnight false false true) Cases.foo_request
           Demo.empty_world EmptyString).
  - reflexivity.
  - left. reflexivity.
  - reflexivity.
Defined.

Lemma failing_canary_witness :
  linux_pipeline Cases.offline Demo.args Cases.foo_request Demo.empty_world
  = (Abort (Raise (CommandError (linux_test_file_command Cases.foo_request))),
     {| fs := fs Demo.empty_world;
        trace := trace Demo.empty_world
                   ++ [ERun (linux_test_file_command Cases.foo_request)
                         "Generating test file for column verification"] |}).
Proof.
  apply (failing_canary_stops_the_run Cases.offline Demo.args Cases.foo_request
           Demo.empty_world EmptyString); reflexivity.
Defined.

Lemma compress_witness :
  linux_pipeline Scenario.platform (Cases.flags Cases.midnight false true true)
    Cases.foo_request Demo.empty_world
  = (Abort (Raise (FileNotFoundError "foo.csv")),
     {| fs := <["foo.csv.gz" := Demo.streamed Scenario.rows "foo.csv.gz"]> ∅;
        trace :=
          [ERun (linux_final_command (Cases.flags Cases.midnight false true true)
                   Cases.foo_request) "Running extract";
           ERun "tar -czf foo.csv.gz foo.csv" "Compressing file";
           ELog "Deleting uncompressed version"] |}).
Proof.
  destruct (compress_needs_the_plain_file Scenario.platform
              (Cases.flags Cases.midnight false true true) Cases.foo_request
              Demo.empty_world EmptyString
              (<["foo.csv.gz" := Demo.streamed Scenario.rows "foo.csv.gz"]> ∅)
              (<["foo.csv.gz" := Demo.streamed Scenario.rows "foo.csv.gz"]> ∅)
              eq_refl eq_refl (or_introl eq_refl) eq_refl eq_refl eq_refl eq_refl)
    as [_ Hrun].
  exact Hrun.
Defined.

(** ** Exit statuses *)

Create HintDb quiet.

Lemma quiet_ret {A} (a : A) : quiet (ret a).
Proof. intros w code. discriminate. Qed.

Lemma quiet_raise {A} e : quiet (@raise A e).
Proof. intros w code. discriminate. Qed.

Lemma quiet_bind {A B} (c : M A) (k : A -> M B) :
  quiet c -> (forall a, quiet (k a)) -> quiet (bind c k).
Proof.
  intros Hc Hk w code. unfold bind. specialize (Hc w code).
  destruct (c w) as [[a|x] w1]; cbn [fst] in *; [apply Hk|].
  intros [= ->]. now apply Hc.
Qed.

Lemma quiet_emit e : quiet (emit e).
Proof. intros w code. discriminate. Qed.

Lemma quiet_lf_write msg : quiet (lf_write msg).
Proof. apply quiet_emit. Qed.

Lemma quiet_print msg : quiet (print msg).
Proof. apply quiet_emit. Qed.

Lemma quiet_lookup_key {V} (d : dict V) k : quiet (lookup_key d k).
Proof.
  unfold lookup_key. destruct (dict_get d k); [apply quiet_ret | apply quiet_raise].
Qed.

Lemma quiet_isfile path : quiet (isfile path).
Proof. intros w code. discriminate. Qed.

Lemma quiet_os_remove path : quiet (os_remove path).
Proof. intros w code. unfold os_remove. destruct (fs w !! path); discriminate. Qed.

Lemma quiet_read_lines path : quiet (read_lines path).
Proof.
  intros w code. unfold read_lines.
  destruct (fs w !! path) as [f|]; [destruct (as_text f)|]; discriminate.
Qed.

Lemma quiet_read_gzip_lines path : quiet (read_gzip_lines path).
Proof.
  intros w code. unfold read_gzip_lines.
  destruct (fs w !! path) as [f|]; [destruct (as_gzip f)|]; discriminate.
Qed.

Lemma quiet_write_file path content : quiet (write_file path content).
Proof. intros w code. discriminate. Qed.

Lemma quiet_getsize path : quiet (getsize path).
Proof. intros w code. unfold getsize. destruct (fs w !! path); discriminate. Qed.

Lemma quiet_for_each {A} (l : list A) (body : A -> M unit) :
  (forall x, quiet (body x)) -> quiet (for_each l body).
Proof.
  intros Hbody. induction l as [|x l IH]; simpl.
  - apply quiet_ret.
  - apply quiet_bind; auto.
Qed.

#[export] Hint Resolve quiet_ret quiet_raise quiet_emit quiet_lf_write quiet_print
  quiet_lookup_key quiet_isfile quiet_os_remove quiet_read_lines
  quiet_read_gzip_lines quiet_write_file quiet_getsize : quiet.
#[export] Hint Extern 2 (quiet (bind _ _)) => apply quiet_bind; [|intros] : quiet.
#[export] Hint Extern 2 (quiet (for_each _ _)) => apply quiet_for_each; intros : quiet.
#[export] Hint Extern 3 (quiet (match ?x with _ => _ end)) => destruct x : quiet.
#[export] Hint Extern 3 (quiet (if ?x then _ else _)) => destruct x : quiet.

Section Exits.
Context (P : Platform).

Lemma quiet_list_extracts valid mic : quiet (list_extracts P valid mic).
Proof.
  unfold list_extracts. apply quiet_bind; [auto with quiet|]. intros _.
  apply quiet_bind; [auto with quiet|]. intros d.
  apply quiet_for_each. intros [k v]. auto with quiet.
Qed.

Lemma quiet_send_mail rt s e : quiet (send_mail P rt s e).
Proof. unfold send_mail. destruct (smtp P); auto with quiet. Qed.

Hint Resolve quiet_list_extracts quiet_send_mail : quiet.

Lemma quiet_verify_cols fn fields rt s e : quiet (verify_cols P fn fields rt s e).
Proof. unfold verify_cols. auto 20 with quiet. Qed.

Hint Resolve quiet_verify_cols : quiet.

Section Commands.
Hypothesis Hraise : commands_raise P.

Lemma quiet_run cmd msg : quiet (run P cmd msg).
Proof.
  intros w code. unfold run. specialize (Hraise cmd msg (fs w) code).
  destruct (run_command P cmd msg (fs w)) as [[x|] fs']; cbn [fst] in *;
    [congruence | discriminate].
Qed.

Hint Resolve quiet_run : quiet.

Lemma quiet_verify_canary tf vtf cmd fields rt s e :
  quiet (verify_canary P tf vtf cmd fields rt s e).
Proof. unfold verify_canary. auto 20 with quiet. Qed.

Lemma quiet_file_lcount fname : quiet (file_lcount fname).
Proof. unfold file_lcount. auto with quiet. Qed.

Hint Resolve quiet_verify_canary quiet_file_lcount : quiet.

Lemma quiet_regular_files f_path names : quiet (regular_files f_path names).
Proof. induction names; simpl; auto 10 with quiet. Qed.

Lemma quiet_listdir path : quiet (listdir P path).
Proof.
  intros w code. unfold listdir. destruct (os_listdir P (fs w) path); discriminate.
Qed.

Lemma quiet_matches rx name : quiet (matches P rx name).
Proof. unfold matches. auto with quiet. Qed.

Hint Resolve quiet_regular_files quiet_listdir quiet_matches : quiet.

Lemma quiet_make_manifests f_path f_name mn testing :
  quiet (make_manifests P f_path f_name mn testing).
Proof. unfold make_manifests, manifest_loop, write_manifest. auto 20 with quiet. Qed.

Hint Resolve quiet_make_manifests : quiet.

Lemma quiet_linux_pipeline args r : quiet (linux_pipeline P args r).
Proof.
  unfold linux_pipeline.
  destruct (linux_suffixes _ _ _ _ _ _ _) as [cmd_suffix canary].
  auto 30 with quiet.
Qed.

Lemma quiet_windows_pipeline args r : quiet (windows_pipeline P args r).
Proof. unfold windows_pipeline. auto 30 with quiet. Qed.
End Commands.

Lemma check_output_exists_exit filename compress overwrite w code :
  fst (check_output_exists filename compress overwrite w) = Abort (SysExit code) ->
  code = 1%Z /\ overwrite = false /\ output_exists (fs w) filename compress = true.
Proof.
  destruct (output_exists (fs w) filename compress) eqn:Hex.
  - destruct overwrite.
    + rewrite (check_output_exists_overwrites _ _ _ Hex). discriminate.
    + rewrite (check_output_exists_refuses _ _ _ Hex). now intros [= <-].
  - rewrite (check_output_exists_absent _ _ _ _ Hex). discriminate.
Qed.

Lemma resolve_exit cfg d args st et etv w code :
  fst (resolve P cfg d args st et etv w) = Abort (SysExit code) ->
  code = 1%Z /\ Args.overwrite args = false
  /\ output_exists (fs w) (output_filename P args) (Args.compress args) = true.
Proof.
  unfold resolve, lookup_key. cbv zeta.
  repeat match goal with
         | |- context [dict_get ?d ?k] =>
             destruct (dict_get d k); [rewrite bind_ret_eq; cbv beta | discriminate]
         end.
  unfold bind at 1.
  destruct (check_output_exists _ _ _ w) as [[[]|x] w1] eqn:Hcheck; cbn [fst].
  - discriminate.
  - intros [= ->]. apply (check_output_exists_exit _ _ _ w). now rewrite Hcheck.
Qed.

Lemma extract_exit cfg valid args w code :
  commands_raise P ->
  fst (extract P cfg valid args w) = Abort (SysExit code) ->
  code = 1%Z /\ Args.overwrite args = false
  /\ output_exists (fs w) (output_filename P args) (Args.compress args) = true.
Proof.
  intros Hraise. unfold extract. cbv zeta.
  destruct (add_second P (Args.start_time args)) as [dt|]; [|discriminate].
  rewrite bind_ret_eq. cbv beta. unfold bind at 1, lf_write at 1, emit at 1.
  unfold bind at 1. unfold lookup_key at 1.
  destruct (dict_get valid (Args.mic args)) as [d|]; [|discriminate].
  cbn [ret].
  destruct (negb (dict_mem d (Args.extract_name args))).
  - intros H. exfalso. revert H. apply quiet_bind; auto with quiet.
  - unfold bind at 1.
    match goal with |- context [resolve P cfg d args ?a ?b ?c ?w1] =>
      pose proof (resolve_exit cfg d args a b c w1 code) as Hexit;
      destruct (resolve P cfg d args a b c w1) as [[r|x] w2]
    end; cbn [fst] in *.
    + intros H. exfalso. revert H.
      destruct (String.eqb _ "linux");
        [apply quiet_linux_pipeline; assumption|].
      destruct (String.eqb _ "windows");
        [apply quiet_windows_pipeline; assumption | discriminate].
    + intros [= ->]. exact (Hexit eq_refl).
Qed.

Lemma main_exit cfg c w code :
  commands_raise P ->
  fst (main P cfg c w) = Abort (SysExit code) ->
  (code = 2%Z /\ dict_mem (get_valid_extracts cfg) (cli_mic c) = false)
  \/ (code = 1%Z /\ dict_mem (get_valid_extracts cfg) (cli_mic c) = true
      /\ exists args, c = CliExtract args /\ Args.overwrite args = false
         /\ output_exists (fs w) (output_filename P args) (Args.compress args) = true).
Proof.
  intros Hraise. unfold main.
  destruct (dict_mem (get_valid_extracts cfg) (cli_mic c)) eqn:Hmem; cbn [negb].
  2: { intros [= <-]. now left. }
  destruct c as [mic|args].
  - intros H. now apply quiet_list_extracts in H.
  - intros H. right.
    destruct (extract_exit _ _ _ _ _ Hraise H) as (-> & Ho & Hc).
    split; [reflexivity|]. split; [reflexivity|]. eauto.
Qed.

End Exits.

Lemma demo_commands_raise rows : commands_raise (Demo.platform rows).
Proof.
  intros cmd msg files code. cbn [run_command Demo.platform].
  unfold Demo.run_command. destruct (Demo.redirect_target cmd); discriminate.
Defined.


(** ** Manifests *)

Lemma append_empty_r (s : string) : s +:+ EmptyString = s.
Proof.
  induction s as [|a s IH]; [reflexivity|].
  change (String a (s +:+ EmptyString) = String a s). now f_equal.
Qed.

Lemma append_assoc_str (a b c : string) : (a +:+ b) +:+ c = a +:+ (b +:+ c).
Proof.
  induction a as [|x a IH]; [reflexivity|].
  change (String x ((a +:+ b) +:+ c) = String x (a +:+ (b +:+ c))). now f_equal.
Qed.

Lemma sub_dot_gz_step repl a b c rest :
  Py.sub_dot_gz repl (String a (String b (String c rest)))
  = if negb (Ascii.eqb a Py.newline) && Ascii.eqb b "g" && Ascii.eqb c "z"
    then repl +:+ Py.sub_dot_gz repl rest
    else String a (Py.sub_dot_gz repl (String b (String c rest))).
Proof. reflexivity. Qed.

(** In a name that holds [gz] nowhere but in its suffix, the
    substitution replaces the suffix alone. *)
Lemma sub_dot_gz_suffix repl stem :
  has_gz stem = false ->
  Py.sub_dot_gz repl (stem +:+ ".gz") = stem +:+ repl.
Proof.
  induction stem as [|a stem IH]; intros Hgz.
  - change (EmptyString +:+ ".gz")
      with (String "." (String "g" (String "z" EmptyString))).
    rewrite sub_dot_gz_step. cbn. apply append_empty_r.
  - assert (Hrest : has_gz stem = false).
    { destruct stem as [|b stem]; [reflexivity|].
      cbn [has_gz] in Hgz. now apply orb_false_iff in Hgz as [_ H]. }
    specialize (IH Hrest).
    change (String a stem +:+ repl) with (String a (stem +:+ repl)).
    rewrite <- IH.
    destruct stem as [|b [|c stem]].
    + change (String a EmptyString +:+ ".gz")
        with (String a (String "." (String "g" (String "z" EmptyString)))).
      rewrite sub_dot_gz_step.
      replace (Ascii.eqb "." "g") with false by reflexivity.
      now rewrite andb_false_r.
    + change (String a (String b EmptyString) +:+ ".gz")
        with (String a (String b (String "." (String "g" (String "z" EmptyString))))).
      rewrite sub_dot_gz_step.
      replace (Ascii.eqb "." "z") with false by reflexivity.
      now rewrite andb_false_r.
    + change (String a (String b (String c stem)) +:+ ".gz")
        with (String a (String b (String c (stem +:+ ".gz")))).
      rewrite sub_dot_gz_step.
      cbn [has_gz] in Hrest. apply orb_false_iff in Hrest as [Hbc _].
      now rewrite <- andb_assoc, Hbc, andb_false_r.
Qed.

(** X19. For an artifact [<stem>.gz] whose stem holds the letters [gz]
    nowhere, the manifest is named [<stem>.manifest], with [.error]
    appended when the artifact is smaller than 5000 bytes and
    [--testing] is the string [False]. *)
Theorem manifest_name_of_artifact (size : nat) (testing stem : string) :
  has_gz stem = false ->
  manifest_name size testing (stem +:+ ".gz")
  = stem +:+ ".manifest"
      +:+ (if (size <? 5000)%nat && String.eqb testing "False" then ".error"
           else EmptyString).
Proof.
  intros Hgz. unfold manifest_name. rewrite sub_dot_gz_suffix by exact Hgz.
  destruct ((size <? 5000)%nat && String.eqb testing "False").
  - now rewrite append_assoc_str.
  - change (".manifest" +:+ EmptyString) with ".manifest". reflexivity.
Qed.

Lemma manifest_name_witness :
  manifest_name 20 "False" "foo.csv.gz" = "foo.csv.manifest.error".
Proof.
  apply (manifest_name_of_artifact 20 "False" "foo.csv"). reflexivity.
Defined.

(** X20. For an artifact with at least one line the manifest step
    writes one file, next to the artifact, holding the single record
    [mnemonic|name|size|0]: the count [file_lcount] returned is not
    part of it, the last field is the constant 0.  The artifact itself
    and every other file stay as they were. *)
Theorem manifest_record_ignores_line_count f_path mnemonic testing name w f ls :
  fs w !! os_path_join f_path name = Some f ->
  as_gzip f = Some ls ->
  ls <> [] ->
  write_manifest f_path mnemonic testing name w
  = (Ret tt,
     {| fs := <[os_path_join f_path (manifest_name (size f) testing name)
                := written [mnemonic +:+ "|" +:+ name +:+ "|"
                              +:+ Py.str_nat (size f) +:+ "|" +:+ "0" +:+ Py.nl]]>
                (fs w);
        trace := trace w
                   ++ [EWrite (os_path_join f_path
                                 (manifest_name (size f) testing name))] |}).
Proof.
  intros Hf Hgz Hne. unfold write_manifest.
  rewrite (bind_run _ _ _ _ _ (file_lcount_counts _ w f ls Hf Hgz Hne)).
  unfold bind, getsize, write_file. now rewrite Hf.
Qed.

Lemma manifest_record_witness :
  write_manifest "out/" "MIC1" "False" "foo.csv.gz" Cases.world_artifact
  = (Ret tt,
     {| fs := <["out/foo.csv.manifest.error"
                := written [Scenario.line "MIC1|foo.csv.gz|16|0"]]>
                (fs Cases.world_artifact);
        trace := [EWrite "out/foo.csv.manifest.error"] |}).
Proof.
  apply (manifest_record_ignores_line_count "out/" "MIC1" "False" "foo.csv.gz"
           Cases.world_artifact Cases.artifact Scenario.rows).
  - reflexivity.
  - reflexivity.
  - discriminate.
Defined.

(** X21. A file whose name does not match the pattern is passed over:
    over a list of such names the manifest loop reads nothing, writes
    nothing and returns. *)
Theorem manifest_loop_skips (P : Platform) f_path rx mnemonic testing file_list w :
  (forall name, In name file_list -> re_match P rx name = Some false) ->
  manifest_loop P f_path rx mnemonic testing file_list w = (Ret tt, w).
Proof.
  unfold manifest_loop. revert w.
  induction file_list as [|n file_list IH]; intros w Hskip; [reflexivity|].
  simpl. unfold bind at 1, bind at 1, matches.
  rewrite (Hskip n (or_introl eq_refl)). simpl.
  apply IH. intros name Hin. apply Hskip. now right.
Qed.

Lemma manifest_loop_skips_witness :
  manifest_loop Scenario.platform "out/" "^foo.*.gz" "MIC1" "False"
    ["out.log"; "bar.csv.gz"] Cases.world_artifact
  = (Ret tt, Cases.world_artifact).
Proof.
  apply (manifest_loop_skips Scenario.platform "out/" "^foo.*.gz" "MIC1" "False"
           ["out.log"; "bar.csv.gz"] Cases.world_artifact).
  intros name [<-|[<-|[]]]; reflexivity.
Defined.

(** ** More on the Linux pipeline and the manifest step *)

Section Canaries.
Context (P : Platform).

(** X22. On Linux without [--console], [--wildcard] and [--no_verify]
    the first thing the pipeline does is run the canary command, and
    that command is the same in all four output modes: whatever
    [--human] and [--compress] say, the canary is piped through the
    comma converter and gzip into [<filename>_test.csv.gz]. *)
Theorem canary_runs_first args r w f_path :
  Args.console args = false ->
  Args.wildcard args = false ->
  Args.no_verify args = false ->
  re_split_head P (List.last (Py.split "/" (r_filename r)) EmptyString)
    (r_filename r) = Some f_path ->
  exists rest,
    trace (snd (linux_pipeline P args r w))
    = trace w
        ++ ERun (r_base_cmd_test_file r +:+ " "
                   +:+ " | ./csv-comma2soh | tr '\001' ',' | /bin/gzip > "
                   +:+ (r_filename r +:+ "_test") +:+ ".csv.gz")
             "Generating test file for column verification" :: rest.
Proof.
  intros Hconsole Hwild Hnov Hsplit.
  rewrite (linux_pipeline_file P args r w f_path Hconsole Hsplit).
  rewrite Hwild, Hnov. cbn [negb andb].
  unfold verify_canary. rewrite bind_assoc.
  change (linux_test_file_command r)
    with (r_base_cmd_test_file r +:+ " "
            +:+ " | ./csv-comma2soh | tr '\001' ',' | /bin/gzip > "
            +:+ (r_filename r +:+ "_test") +:+ ".csv.gz").
  unfold bind at 1. rewrite run_result.
  destruct (fst (run_command P _ _ (fs w))) as [x|].
  - exists []. reflexivity.
  - match goal with |- exists rest, trace (snd (?c ?w1)) = _ =>
      assert (Hg : grows c);
      [ pose proof (grows_run P); pose proof (grows_make_manifests P);
        pose proof (grows_verify_cols P);
        auto 30 with grows
      | destruct (Hg w1) as [t Ht]; exists t; rewrite Ht; cbn [trace];
        norm_trace ]
    end.
Qed.

(** X23. A canary file of fewer than six lines has no header line:
    the header file is written empty, so [verify_cols] compares the
    expected columns with the single empty name, and unless that is
    the expected list the verification fails.  The verification path
    still returns, and the empty header file is left behind, as after
    any failed verification. *)
Theorem short_canary_fails_verification test_filename cmd expected rt s e w w1 f ls :
  run P cmd "Generating test file for column verification" w = (Ret tt, w1) ->
  fs w1 !! test_filename = Some f ->
  as_text f = Some ls ->
  length ls < 6 ->
  expected <> [EmptyString] ->
  is_Some (fs w1 !! (test_filename +:+ ".csv")) ->
  smtp P <> SmtpRefused ->
  first_line ls = None
  /\ fst (check_columns expected (header_columns [])) = false
  /\ exists w2,
       verify_canary P test_filename (verify_filename_of test_filename)
         cmd expected rt s e w = (Ret tt, w2)
       /\ fs w2 !! verify_filename_of test_filename = Some (written [])
       /\ fs w2 !! (test_filename +:+ ".csv") = None.
Proof.
  intros Hrun Hf Htext Hshort Hexp [g Hcsv] Hsmtp.
  assert (Hnone : first_line ls = None).
  { rewrite first_line_sixth. apply nth_error_None. lia. }
  assert (Hfalse : fst (check_columns expected (header_columns [])) = false).
  { apply check_columns_differ. intros H. apply Hexp. now rewrite <- H. }
  split; [exact Hnone|]. split; [exact Hfalse|].
  unfold verify_canary.
  rewrite (bind_run _ _ _ _ _ Hrun).
  unfold lf_write at 1. rewrite (bind_run _ _ _ _ _ (emit_run _ w1)).
  assert (Hread : read_lines test_filename (logged w1 [ELog "Generating verification file"])
                  = (Ret ls, logged w1 [ELog "Generating verification file"])).
  { unfold read_lines. cbn [fs logged]. now rewrite Hf, Htext. }
  rewrite (bind_run _ _ _ _ _ Hread). rewrite Hnone.
  unfold write_file at 1. unfold bind at 1.
  match goal with |- context [bind (verify_cols P ?fn expected rt s e) _ ?w'] =>
    destruct (verify_cols_returns P fn expected rt s e w' _ _
                (lookup_insert_eq _ _ _) eq_refl Hsmtp) as [t Hv]
  end.
  rewrite (bind_run _ _ _ _ _ Hv).
  assert (Hne : verify_filename_of test_filename <> test_filename +:+ ".csv").
  { unfold verify_filename_of. intros H. apply append_inv_head in H. discriminate. }
  unfold header_columns in Hfalse. rewrite Hfalse.
  unfold bind, lf_write, emit, os_remove. cbn [fs trace logged].
  rewrite lookup_insert_ne, Hcsv by exact Hne.
  eexists. split; [reflexivity|]. cbn [fs]. split.
  - rewrite lookup_delete_ne by congruence. apply lookup_insert_eq.
  - apply lookup_delete_eq.
Qed.
End Canaries.

Lemma canary_runs_first_witness :
  exists rest,
    trace (snd (linux_pipeline Scenario.platform Demo.args Cases.foo_request
                  Demo.empty_world))
    = trace Demo.empty_world
        ++ ERun Scenario.canary_command
             "Generating test file for column verification" :: rest.
Proof.
  apply (canary_runs_first Scenario.platform Demo.args Cases.foo_request
           Demo.empty_world EmptyString); reflexivity.
Defined.

Lemma short_canary_witness :
  first_line [Scenario.line "ts,px,qty"; Scenario.line "1,2,3"] = None
  /\ fst (check_columns ["ts"; "px"; "qty"] (header_columns [])) = false
  /\ exists w2,
       verify_canary Scenario.platform "foo_test" (verify_filename_of "foo_test")
         Scenario.canary_command ["ts"; "px"; "qty"]
         "C1" "2024-01-01 00:00:00" "2024-01-01 01:00:00" Cases.world_short_canary
       = (Ret tt, w2)
       /\ fs w2 !! verify_filename_of "foo_test" = Some (written [])
       /\ fs w2 !! "foo_test.csv" = None.
Proof.
  apply (short_canary_fails_verification Scenario.platform "foo_test"
           Scenario.canary_command ["ts"; "px"; "qty"]
           "C1" "2024-01-01 00:00:00" "2024-01-01 01:00:00"
           Cases.world_short_canary
           (snd (run Scenario.platform Scenario.canary_command
                   "Generating test file for column verification"
                   Cases.world_short_canary))
           (written [Scenario.line "ts,px,qty"; Scenario.line "1,2,3"])
           [Scenario.line "ts,px,qty"; Scenario.line "1,2,3"]).
  - reflexivity.
  - reflexivity.
  - reflexivity.
  - simpl. lia.
  - discriminate.
  - exists (written []). reflexivity.
  - discriminate.
Defined.

